(** * assist_reader: the response-to-schema transformations, verified

    The repository holds four scripts that fetch a JSON document from the
    ASSIST API, reshape it and dump the result to a file:

    - [IGETC.py] and [calgetc.py]: the GE-list transformer and the
      "currently approved" rule;
    - [make_simple_transfers.py]: the articulation transformer;
    - [get_institutions.py]: the institution directory.

    The scripts are embedded as functions over the Python values that
    [json.loads] produces.  Exceptions are explicit ([result]); printing,
    the clock, the network and the file system live in a [World] that the
    effectful functions thread through. *)

From Stdlib Require Import ZArith List Bool Ascii String Lia.
From Stdlib Require Import DecimalString.
Import ListNotations.

Local Open Scope list_scope.
Local Open Scope string_scope.

(** ** Python values *)

(** What [json.loads] returns.  A [str] is a sequence of code points; the
    model carries the code points below 256, one per [ascii].  A [float] is
    carried by its [repr], the shortest decimal that reads back to it. *)
#[warnings="-register-all"]
Inductive pyval : Type :=
| VNone
| VBool (b : bool)
| VInt (n : Z)
| VFloat (repr : string)
| VStr (s : string)
| VList (xs : list pyval)
| VDict (kvs : list (string * pyval)).

(** The exception classes the scripts can meet. *)
Inductive request_error : Type :=
| ConnectionError
| Timeout
| HTTPError
| InvalidJSONError
| OtherRequestError.

Inductive exn : Type :=
| KeyError (key : pyval)
| IndexError
| TypeError
| AttributeError
| ValueError
| OSError
| UnicodeEncodeError
| RequestException (kind : request_error) (msg : string).

Inductive result (A : Type) : Type :=
| Ok (a : A)
| Raise (e : exn).

Arguments Ok {A} a.
Arguments Raise {A} e.

Definition bind {A B : Type} (r : result A) (k : A -> result B) : result B :=
  match r with
  | Ok a => k a
  | Raise e => Raise e
  end.

Notation "x <- r ;; k" := (bind r (fun x => k))
  (at level 61, r at next level, right associativity).

(** [mapM f xs]: a comprehension or an appending loop; the first exception
    ends it. *)
Fixpoint mapM {A B : Type} (f : A -> result B) (xs : list A) : result (list B) :=
  match xs with
  | [] => Ok []
  | x :: rest =>
      y <- f x ;;
      ys <- mapM f rest ;;
      Ok (y :: ys)
  end.

(** ** Truth value, lookup, subscript, iteration *)

Definition float_is_zero (repr : string) : bool :=
  String.eqb repr "0.0" || String.eqb repr "-0.0".

(** [bool(v)] *)
Definition truthy (v : pyval) : bool :=
  match v with
  | VNone => false
  | VBool b => b
  | VInt n => negb (Z.eqb n 0)
  | VFloat r => negb (float_is_zero r)
  | VStr s => negb (String.eqb s "")
  | VList xs => match xs with [] => false | _ => true end
  | VDict kvs => match kvs with [] => false | _ => true end
  end.

(** [a or b] on values already computed. *)
Definition py_or (a b : pyval) : pyval := if truthy a then a else b.

Fixpoint lookup (k : string) (kvs : list (string * pyval)) : option pyval :=
  match kvs with
  | [] => None
  | (k', v) :: rest => if String.eqb k k' then Some v else lookup k rest
  end.

(** [d.get(k, default)]: only a dict has the method. *)
Definition get_default (d : pyval) (k : string) (default : pyval) : result pyval :=
  match d with
  | VDict kvs =>
      match lookup k kvs with
      | Some v => Ok v
      | None => Ok default
      end
  | _ => Raise AttributeError
  end.

(** [d.get(k)] *)
Definition get (d : pyval) (k : string) : result pyval := get_default d k VNone.

(** [d[k]] with a string key. *)
Definition getitem (d : pyval) (k : string) : result pyval :=
  match d with
  | VDict kvs =>
      match lookup k kvs with
      | Some v => Ok v
      | None => Raise (KeyError (VStr k))
      end
  | _ => Raise TypeError
  end.

(** [v[0]] *)
Definition getitem0 (v : pyval) : result pyval :=
  match v with
  | VList (x :: _) => Ok x
  | VList [] => Raise IndexError
  | VStr (String c _) => Ok (VStr (String c EmptyString))
  | VStr EmptyString => Raise IndexError
  | VDict _ => Raise (KeyError (VInt 0))
  | _ => Raise TypeError
  end.

Fixpoint chars (s : string) : list pyval :=
  match s with
  | EmptyString => []
  | String c rest => VStr (String c EmptyString) :: chars rest
  end.

(** [for x in v]: the elements a loop visits. *)
Definition iter (v : pyval) : result (list pyval) :=
  match v with
  | VList xs => Ok xs
  | VStr s => Ok (chars s)
  | VDict kvs => Ok (map (fun kv => VStr (fst kv)) kvs)
  | _ => Raise TypeError
  end.

Fixpoint is_substring (needle hay : string) : bool :=
  String.prefix needle hay
  || match hay with
     | EmptyString => false
     | String _ rest => is_substring needle rest
     end.

Definition is_str (k : string) (v : pyval) : bool :=
  match v with
  | VStr s => String.eqb s k
  | _ => false
  end.

(** [k in v] for a string [k]. *)
Definition contains (k : string) (v : pyval) : result bool :=
  match v with
  | VDict kvs => Ok (match lookup k kvs with Some _ => true | None => false end)
  | VList xs => Ok (existsb (is_str k) xs)
  | VStr s => Ok (is_substring k s)
  | _ => Raise TypeError
  end.

(** ** Strings *)

(** [str.isspace] on one code point below 256. *)
Definition isspace (c : ascii) : bool :=
  let n := nat_of_ascii c in
  ((9 <=? n) && (n <=? 13) || (28 <=? n) && (n <=? 32)
   || (n =? 133) || (n =? 160))%nat.

(** The argument of [strip(" -")]. *)
Definition space_or_hyphen (c : ascii) : bool :=
  Ascii.eqb c " " || Ascii.eqb c "-".

Fixpoint lstrip (p : ascii -> bool) (s : string) : string :=
  match s with
  | EmptyString => EmptyString
  | String c rest => if p c then lstrip p rest else s
  end.

Fixpoint rstrip (p : ascii -> bool) (s : string) : string :=
  match s with
  | EmptyString => EmptyString
  | String c rest =>
      match rstrip p rest with
      | EmptyString => if p c then EmptyString else String c EmptyString
      | kept => String c kept
      end
  end.

(** [s.strip()] with [p := isspace], [s.strip(chars)] with [p] the
    membership in [chars]. *)
Definition strip (p : ascii -> bool) (s : string) : string :=
  rstrip p (lstrip p s).

(** [v.strip()]: a method of [str] only. *)
Definition strip_method (v : pyval) : result string :=
  match v with
  | VStr s => Ok (strip isspace s)
  | _ => Raise AttributeError
  end.

(** The code points of a string, as a stream receives them. *)
Fixpoint codes (s : string) : list N :=
  match s with
  | EmptyString => []
  | String c rest => N_of_ascii c :: codes rest
  end.

(** ** Formatting: [str] and [repr] *)

Definition quote1 : ascii := ascii_of_nat 39.
Definition quote2 : ascii := ascii_of_nat 34.
Definition backslash : ascii := ascii_of_nat 92.

Definition hex_digit (n : nat) : ascii :=
  match String.get n "0123456789abcdef" with
  | Some c => c
  | None => "0"%char
  end.

(** Code points below 256 that [repr] writes as an escape: the controls,
    DEL, the C1 block, the no-break space and the soft hyphen. *)
Definition unprintable (n : nat) : bool :=
  ((n <? 32) || (n =? 127) || (128 <=? n) && (n <=? 160) || (n =? 173))%nat.

Definition escape_char (quote c : ascii) : string :=
  let n := nat_of_ascii c in
  if Ascii.eqb c quote || Ascii.eqb c backslash then String backslash (String c "")
  else if (n =? 9)%nat then String backslash "t"
  else if (n =? 10)%nat then String backslash "n"
  else if (n =? 13)%nat then String backslash "r"
  else if unprintable n
       then String backslash
              (String "x" (String (hex_digit (n / 16)%nat) (String (hex_digit (n mod 16)%nat) "")))
  else String c "".

Fixpoint escape (quote : ascii) (s : string) : string :=
  match s with
  | EmptyString => EmptyString
  | String c rest => escape_char quote c ++ escape quote rest
  end.

Fixpoint has_char (c : ascii) (s : string) : bool :=
  match s with
  | EmptyString => false
  | String c' rest => Ascii.eqb c c' || has_char c rest
  end.

(** [repr(s)]: double quotes only when [s] has a single quote and no
    double quote. *)
Definition repr_str (s : string) : string :=
  let quote := if has_char quote1 s && negb (has_char quote2 s) then quote2 else quote1 in
  String quote (escape quote s ++ String quote "").

Definition str_of_int (n : Z) : string := NilZero.string_of_int (Z.to_int n).

Fixpoint join (sep : string) (parts : list string) : string :=
  match parts with
  | [] => ""
  | [p] => p
  | p :: rest => p ++ sep ++ join sep rest
  end.

(** [repr(v)] *)
Fixpoint py_repr (v : pyval) : string :=
  match v with
  | VNone => "None"
  | VBool true => "True"
  | VBool false => "False"
  | VInt n => str_of_int n
  | VFloat r => r
  | VStr s => repr_str s
  | VList xs => "[" ++ join ", " (map py_repr xs) ++ "]"
  | VDict kvs =>
      "{" ++ join ", " (map (fun '(k, x) => repr_str k ++ ": " ++ py_repr x) kvs) ++ "}"
  end.

(** [str(v)], what an f-string writes for [{v}]. *)
Definition py_str (v : pyval) : string :=
  match v with
  | VStr s => s
  | _ => py_repr v
  end.

(** ** Naive and aware datetimes *)

Record datetime : Type := {
  year : Z; month : Z; day : Z;
  hour : Z; minute : Z; second : Z; microsecond : Z
}.

Definition fields (d : datetime) : list Z :=
  [year d; month d; day d; hour d; minute d; second d; microsecond d].

Fixpoint lex_lt (a b : list Z) : bool :=
  match a, b with
  | x :: a', y :: b' => (x <? y)%Z || ((x =? y)%Z && lex_lt a' b')
  | _, _ => false
  end.

(** [a > b] between two naive datetimes. *)
Definition dt_gt (a b : datetime) : bool := lex_lt (fields b) (fields a).

(** What [datetime.fromisoformat] does with a string: a naive datetime, an
    aware one (with its UTC offset in microseconds), or [ValueError]. *)
Inductive iso_outcome : Type :=
| IsoNaive (d : datetime)
| IsoAware (d : datetime) (utcoffset : Z)
| IsoValueError.

(** ** The world around a script *)

(** A response of [requests.get]: what [raise_for_status] raises on it (the
    message of the [HTTPError], if any) and what [json()] gives. *)
Record Response : Type := {
  status_error : option string;
  json_body : result pyval
}.

Inductive get_outcome : Type :=
| GetRaises (kind : request_error) (msg : string)
| GetReturns (r : Response).

(** The network answers per URL; [utcnow_at k] is what the clock shows at the
    [k]-th reading; [stdout], the lines printed, each a sequence of code
    points, and [files] grow as the script prints and dumps.  [unwritable]
    tells the paths that [open(path, "w")] refuses with an [OSError] (a
    missing directory, no permission); [stdout_encodes] tells which code
    points from 256 on the encoding of the stream has (those of the model's
    strings, below 256, it is taken to have). *)
Record World : Type := {
  http : string -> get_outcome;
  utcnow_at : nat -> datetime;
  clock_reads : nat;
  stdout : list (list N);
  files : list (string * pyval);
  unwritable : string -> bool;
  stdout_encodes : N -> bool
}.

Definition M (A : Type) : Type := World -> result A * World.

Definition ret {A : Type} (a : A) : M A := fun w => (Ok a, w).

Definition raise {A : Type} (e : exn) : M A := fun w => (Raise e, w).

Definition lift {A : Type} (r : result A) : M A := fun w => (r, w).

Definition mbind {A B : Type} (m : M A) (k : A -> M B) : M B :=
  fun w =>
    match m w with
    | (Ok a, w') => k a w'
    | (Raise e, w') => (Raise e, w')
    end.

Notation "x <~ m ;; k" := (mbind m (fun x => k))
  (at level 61, m at next level, right associativity).

(** [try: body except RequestException as e: handler(e)] *)
Definition catch_request {A : Type} (body : M A) (handler : string -> M A) : M A :=
  fun w =>
    match body w with
    | (Raise (RequestException _ msg), w') => handler msg w'
    | other => other
    end.

Fixpoint mapM_io {A B : Type} (f : A -> M B) (xs : list A) : M (list B) :=
  match xs with
  | [] => ret []
  | x :: rest =>
      y <~ f x ;;
      ys <~ mapM_io f rest ;;
      ret (y :: ys)
  end.

(** [datetime.utcnow()] *)
Definition utcnow : M datetime :=
  fun w =>
    (Ok (utcnow_at w (clock_reads w)),
     {| http := http w; utcnow_at := utcnow_at w;
        clock_reads := S (clock_reads w);
        stdout := stdout w; files := files w;
        unwritable := unwritable w; stdout_encodes := stdout_encodes w |}).

(** [print(line)] for a line made of the model's strings. *)
Definition print (line : string) : M unit :=
  fun w =>
    (Ok tt,
     {| http := http w; utcnow_at := utcnow_at w; clock_reads := clock_reads w;
        stdout := (stdout w ++ [codes line])%list; files := files w;
        unwritable := unwritable w; stdout_encodes := stdout_encodes w |}).

(** Whether the stream can encode a code point. *)
Definition encodable (w : World) (c : N) : bool :=
  (c <? 256)%N || stdout_encodes w c.

(** [print(line)] for any line: the stream encodes the whole line before it
    writes, and raises [UnicodeEncodeError], nothing written, on a code point
    it does not have. *)
Definition print_line (line : list N) : M unit :=
  fun w =>
    if forallb (encodable w) line
    then (Ok tt,
          {| http := http w; utcnow_at := utcnow_at w;
             clock_reads := clock_reads w;
             stdout := (stdout w ++ [line])%list; files := files w;
             unwritable := unwritable w; stdout_encodes := stdout_encodes w |})
    else (Raise UnicodeEncodeError, w).

(** [with open(path, "w") as f: json.dump(data, f, indent=2)]: [open]
    raises [OSError] on a path it cannot open for writing. *)
Definition dump_to (path : string) (data : pyval) : M unit :=
  fun w =>
    if unwritable w path
    then (Raise OSError, w)
    else (Ok tt,
          {| http := http w; utcnow_at := utcnow_at w;
             clock_reads := clock_reads w;
             stdout := stdout w; files := (files w ++ [(path, data)])%list;
             unwritable := unwritable w; stdout_encodes := stdout_encodes w |}).

(** [requests.get(url, ...)] *)
Definition requests_get (url : string) : M Response :=
  fun w =>
    match http w url with
    | GetRaises kind msg => (Raise (RequestException kind msg), w)
    | GetReturns r => (Ok r, w)
    end.

(** [response.raise_for_status()] *)
Definition raise_for_status (r : Response) : M unit :=
  match status_error r with
  | Some msg => raise (RequestException HTTPError msg)
  | None => ret tt
  end.

(** [response.json()] *)
Definition response_json (r : Response) : M pyval := lift (json_body r).

Fixpoint ends_with (c : ascii) (s : string) : bool :=
  match s with
  | EmptyString => false
  | String c' EmptyString => Ascii.eqb c c'
  | String _ rest => ends_with c rest
  end.

(** [os.path.isabs(p)] and [os.path.join(dir, name)] on POSIX paths. *)
Definition isabs (p : string) : bool := String.prefix "/" p.

Definition path_join (dir name : string) : string :=
  if isabs name then name
  else if String.eqb dir "" || ends_with "/" dir then dir ++ name
  else dir ++ "/" ++ name.

(** ** IGETC.py *)

Module IGETC.

Section WithParser.

(** [datetime.fromisoformat]: the strings it accepts depend on the
    interpreter's version, so the script is embedded over any parser. *)
Variable fromisoformat : string -> iso_outcome.

Definition fetch_api_data (url : string) : M pyval :=
  response <~ requests_get url ;;
  _ <~ raise_for_status response ;;
  response_json response.

(** A value that is not a [str] makes [fromisoformat] raise [TypeError];
    an aware datetime makes the comparison with [utcnow()] raise it. *)
Definition is_currently_approved (end_date_str : pyval) : M bool :=
  if negb (truthy end_date_str) then ret true
  else
    match end_date_str with
    | VStr s =>
        match fromisoformat s with
        | IsoValueError => ret false
        | IsoNaive end_dt =>
            now <~ utcnow ;;
            ret (dt_gt end_dt now)
        | IsoAware _ _ =>
            _ <~ utcnow ;;
            raise TypeError
        end
    | _ => raise TypeError
    end.

(** Lines 71-73: the [course] field. *)
Definition course_name (c : pyval) : result string :=
  i <- get c "identifier" ;;
  identifier <- strip_method (py_or i (VStr "")) ;;
  t <- get c "courseTitle" ;;
  title <- strip_method (py_or t (VStr "")) ;;
  Ok (strip space_or_hyphen (identifier ++ " - " ++ title)).

(** Lines 75-79: the comprehension; the condition and then the element are
    evaluated for each area. *)
Fixpoint select_codes (areas : list pyval) : result (list pyval) :=
  match areas with
  | [] => Ok []
  | a :: rest =>
      cond <- get a "code" ;;
      if truthy cond
      then code <- get a "code" ;;
           codes <- select_codes rest ;;
           Ok (code :: codes)
      else select_codes rest
  end.

Definition transfer_areas (c : pyval) : result (list pyval) :=
  ta <- get c "transferAreas" ;;
  areas <- iter (py_or ta (VList [])) ;;
  select_codes areas.

(** Lines 71-91: one turn of the loop, the dict appended to
    [courses_out]. *)
Definition course_entry (c : pyval) : M pyval :=
  course_name <~ lift (course_name c) ;;
  transfer_areas <~ lift (transfer_areas c) ;;
  end_date <~ lift (get c "endDate") ;;
  begin_date <~ lift (get c "beginDate") ;;
  begin_term <~ lift (get c "beginTermCode") ;;
  end_term <~ lift (get c "endTermCode") ;;
  approved <~ is_currently_approved end_date ;;
  ret (VDict [("course", VStr course_name);
              ("transferAreas", VList transfer_areas);
              ("approvedDate", begin_date);
              ("approvedTerm", begin_term);
              ("removedDate", end_date);
              ("removedTerm", end_term);
              ("isCurrentlyApproved", VBool approved)]).

(** Lines 68-91: the loop over [courseInformationList]. *)
Definition courses_of (data : pyval) : M (list pyval) :=
  listed <~ lift (get_default data "courseInformationList" (VList [])) ;;
  cs <~ lift (iter (py_or listed (VList []))) ;;
  mapM_io course_entry cs.

(** Lines 93-98: the top-level fields around the courses. *)
Definition ge_document (data : pyval) (courses_out : list pyval) : result pyval :=
  name <- get data "institutionName" ;;
  ay <- get data "academicYear" ;;
  code <- get (py_or ay (VDict [])) "code" ;;
  list_type <- get data "listType" ;;
  Ok (VDict [("institutionName", name);
             ("academicYear", code);
             ("listType", list_type);
             ("courses", VList courses_out)]).

(** Lines 68-98: everything after the fetch. *)
Definition transform (data : pyval) : M pyval :=
  courses_out <~ courses_of data ;;
  lift (ge_document data courses_out).

Definition get_csu_ge_courses (institution_id academic_year_id : Z)
    (list_type : string) : M pyval :=
  let url := "https://www.assist.org/api/transferability/courses"
             ++ "?institutionId=" ++ str_of_int institution_id
             ++ "&academicYearId=" ++ str_of_int academic_year_id
             ++ "&listType=" ++ list_type in
  data <~ fetch_api_data url ;;
  transform data.

(** [script_dir] is [os.path.dirname(__file__)]. *)
Definition main (script_dir : string) (institution_id academic_year_id : Z)
    (list_type out_file : string) : M unit :=
  res <~ get_csu_ge_courses institution_id academic_year_id list_type ;;
  let out_path := if isabs out_file then out_file else path_join script_dir out_file in
  _ <~ dump_to out_path res ;;
  courses <~ lift (getitem res "courses") ;;
  n <~ lift (match courses with
             | VList xs => Ok (Z.of_nat (List.length xs))
             | _ => Raise TypeError
             end) ;;
  print ("Saved " ++ str_of_int n ++ " courses to " ++ out_path).

End WithParser.

End IGETC.

(** ** calgetc.py *)

(** The script repeats [fetch_api_data], [is_currently_approved] and the
    loop of IGETC.py line for line; it differs in the [listTypeRequested]
    field and in a second printed line. *)
Module Calgetc.

Section WithParser.

Variable fromisoformat : string -> iso_outcome.

Definition fetch_api_data : string -> M pyval := IGETC.fetch_api_data.

Definition is_currently_approved : pyval -> M bool :=
  IGETC.is_currently_approved fromisoformat.

Definition courses_of : pyval -> M (list pyval) := IGETC.courses_of fromisoformat.

Definition ge_document (data : pyval) (list_type : string)
    (courses_out : list pyval) : result pyval :=
  name <- get data "institutionName" ;;
  ay <- get data "academicYear" ;;
  code <- get (py_or ay (VDict [])) "code" ;;
  reported <- get data "listType" ;;
  Ok (VDict [("institutionName", name);
             ("academicYear", code);
             ("listType", reported);
             ("listTypeRequested", VStr list_type);
             ("courses", VList courses_out)]).

Definition transform (list_type : string) (data : pyval) : M pyval :=
  courses_out <~ courses_of data ;;
  lift (ge_document data list_type courses_out).

Definition get_transfer_courses (institution_id academic_year_id : Z)
    (list_type : string) : M pyval :=
  let url := "https://www.assist.org/api/transferability/courses"
             ++ "?institutionId=" ++ str_of_int institution_id
             ++ "&academicYearId=" ++ str_of_int academic_year_id
             ++ "&listType=" ++ list_type in
  data <~ fetch_api_data url ;;
  transform list_type data.

Definition main (script_dir : string) (institution_id academic_year_id : Z)
    (list_type out_file : string) : M unit :=
  res <~ get_transfer_courses institution_id academic_year_id list_type ;;
  let out_path := if isabs out_file then out_file else path_join script_dir out_file in
  _ <~ dump_to out_path res ;;
  courses <~ lift (getitem res "courses") ;;
  n <~ lift (match courses with
             | VList xs => Ok (Z.of_nat (List.length xs))
             | _ => Raise TypeError
             end) ;;
  _ <~ print ("Saved " ++ str_of_int n ++ " courses to " ++ out_path) ;;
  name <~ lift (get res "institutionName") ;;
  if truthy name
  then year <~ lift (get res "academicYear") ;;
       if truthy year
       then print (py_str name ++ " (" ++ py_str year ++ ")")
       else ret tt
  else ret tt.

End WithParser.

End Calgetc.

(** ** make_simple_transfers.py *)

Module MakeSimpleTransfers.

Definition no_equivalent : pyval := VList [VStr "No equivalent course"].

(** U+2192, the arrow of line 90: one code point, beyond those of the
    model's strings. *)
Definition arrow : N := 8594%N.

(** Line 90: the two names, a space, the arrow and a space between them. *)
Definition names_line (from_college to_college : pyval) : list N :=
  (codes (py_str from_college) ++ [32%N; arrow; 32%N]
   ++ codes (py_str to_college))%list.

Definition fetch_api_data (url : string) : M pyval :=
  catch_request
    (response <~ requests_get url ;;
     _ <~ raise_for_status response ;;
     response_json response)
    (fun e =>
       _ <~ print ("Error fetching data: " ++ e) ;;
       ret VNone).

(** Line 65: one destination course. *)
Definition destination (to_course : pyval) : result pyval :=
  prefix <- getitem to_course "prefix" ;;
  number <- getitem to_course "courseNumber" ;;
  title <- getitem to_course "courseTitle" ;;
  Ok (VStr (py_str prefix ++ " " ++ py_str number ++ ": " ++ py_str title)).

(** Lines 63-65: what one item appends to [transfers_to]. *)
Definition from_item (item : pyval) : result (list pyval) :=
  nested <- contains "items" item ;;
  if nested
  then inner <- getitem item "items" ;;
       to_courses <- iter inner ;;
       mapM destination to_courses
  else Ok [].

(** Lines 62-65: the strings appended to [transfers_to]. *)
Fixpoint collect (items : list pyval) : result (list pyval) :=
  match items with
  | [] => Ok []
  | item :: rest =>
      here <- from_item item ;;
      later <- collect rest ;;
      Ok (here ++ later)%list
  end.

(** Line 60: the condition of the [if]. *)
Definition has_mapping (course : pyval) : result bool :=
  sa <- get course "sendingArticulation" ;;
  if truthy sa
  then sa' <- getitem course "sendingArticulation" ;;
       items <- get sa' "items" ;;
       Ok (truthy items)
  else Ok false.

(** Lines 60-68: the value stored under [transfers_to]. *)
Definition transfers_to (course : pyval) : result pyval :=
  mapped <- has_mapping course ;;
  if mapped
  then sa <- getitem course "sendingArticulation" ;;
       listed <- getitem sa "items" ;;
       items <- iter listed ;;
       found <- collect items ;;
       Ok (match found with
           | [] => no_equivalent
           | _ => VList found
           end)
  else Ok no_equivalent.

(** Lines 50-68: the dict appended for an entry of type [Course]. *)
Definition transfer_entry (course : pyval) : result pyval :=
  course_info <- getitem course "course" ;;
  prefix <- getitem course_info "prefix" ;;
  number <- getitem course_info "courseNumber" ;;
  title <- getitem course_info "courseTitle" ;;
  units <- get_default course_info "minUnits" (VStr "N/A") ;;
  department <- getitem course_info "department" ;;
  destinations <- transfers_to course ;;
  Ok (VDict [("from_course", VStr (py_str prefix ++ " " ++ py_str number));
             ("course_title", title);
             ("units", units);
             ("department", department);
             ("transfers_to", destinations)]).

(** Lines 48-70: the inner loop, over the entries of one department. *)
Fixpoint dept_transfers (courses : list pyval) : result (list pyval) :=
  match courses with
  | [] => Ok []
  | course :: rest =>
      type <- getitem course "type" ;;
      if is_str "Course" type
      then entry <- transfer_entry course ;;
           entries <- dept_transfers rest ;;
           Ok (entry :: entries)
      else dept_transfers rest
  end.

(** Lines 47-70: the outer loop, over the department groups. *)
Fixpoint extract_transfers (articulations : list pyval) : result (list pyval) :=
  match articulations with
  | [] => Ok []
  | dept :: rest =>
      listed <- getitem dept "articulations" ;;
      courses <- iter listed ;;
      here <- dept_transfers courses ;;
      later <- extract_transfers rest ;;
      Ok (here ++ later)%list
  end.

(** Line 24 *)
Definition api_url (from_code to_code : string) : string :=
  "https://assist.org/api/articulation/Agreements?Key=75/"
  ++ from_code ++ "/to/" ++ to_code ++ "/AllPrefixes".

Section WithDecoder.

(** [json.loads] on a [str]. *)
Variable json_loads : string -> result pyval.

Definition loads (v : pyval) : result pyval :=
  match v with
  | VStr s => json_loads s
  | _ => Raise TypeError
  end.

(** Lines 30-72: everything after the [if not raw_data] guard. *)
Definition simple_data (raw_data : pyval) : result pyval :=
  res <- getitem raw_data "result" ;;
  r <- getitem res "receivingInstitution" ;;
  receiving <- loads r ;;
  s <- getitem res "sendingInstitution" ;;
  sending <- loads s ;;
  y <- getitem res "academicYear" ;;
  academic_year <- loads y ;;
  a <- getitem res "articulations" ;;
  articulations <- loads a ;;
  sending_names <- getitem sending "names" ;;
  sending_first <- getitem0 sending_names ;;
  from_college <- getitem sending_first "name" ;;
  receiving_names <- getitem receiving "names" ;;
  receiving_first <- getitem0 receiving_names ;;
  to_college <- getitem receiving_first "name" ;;
  year_code <- getitem academic_year "code" ;;
  depts <- iter articulations ;;
  transfers <- extract_transfers depts ;;
  Ok (VDict [("from_college", from_college);
             ("to_college", to_college);
             ("academic_year", year_code);
             ("transfers", VList transfers)]).

Definition get_transfer_data (from_code to_code : string) : M pyval :=
  raw_data <~ fetch_api_data (api_url from_code to_code) ;;
  if negb (truthy raw_data) then ret VNone
  else lift (simple_data raw_data).

(** [script_dir] is [os.path.dirname(os.path.abspath(__file__))]. *)
Definition main (script_dir from_code to_code : string) : M unit :=
  transfer_data <~ get_transfer_data from_code to_code ;;
  if negb (truthy transfer_data)
  then print "Failed to fetch data from API"
  else
    let json_path := path_join script_dir "simple_transfers.json" in
    _ <~ dump_to json_path transfer_data ;;
    transfers <~ lift (getitem transfer_data "transfers") ;;
    n <~ lift (match transfers with
               | VList xs => Ok (Z.of_nat (List.length xs))
               | _ => Raise TypeError
               end) ;;
    _ <~ print ("Created simple_transfers.json with " ++ str_of_int n ++ " courses") ;;
    from_college <~ lift (getitem transfer_data "from_college") ;;
    to_college <~ lift (getitem transfer_data "to_college") ;;
    print_line (names_line from_college to_college).

(** Lines 92-99: [SAMPLE_DATA] is the module's global.  The function is
    given what the global holds and returns, beside its run, what the global
    holds afterwards; an exception leaves the assignment undone. *)
Definition store_data_in_file (from_code to_code : string) (SAMPLE_DATA : pyval)
    : World -> (result pyval * World) * pyval :=
  fun w =>
    match get_transfer_data from_code to_code w with
    | (Ok data, w') => ((Ok data, w'), data)
    | (Raise e, w') => ((Raise e, w'), SAMPLE_DATA)
    end.

End WithDecoder.

End MakeSimpleTransfers.

(** ** get_institutions.py *)

Module GetInstitutions.

Definition URL : string := "https://www.assist.org/api/institutions".

(** Lines 12-15: the dict built for one institution. *)
Definition institution_record (inst : pyval) : result pyval :=
  names <- get inst "names" ;;
  school_name <- (if truthy names
                  then listed <- getitem inst "names" ;;
                       first <- getitem0 listed ;;
                       getitem first "name"
                  else Ok VNone) ;;
  code <- getitem inst "id" ;;
  Ok (VDict [("schoolName", school_name); ("code", code)]).

(** Lines 11-17: the comprehension. *)
Definition parsed (institutions : pyval) : result (list pyval) :=
  insts <- iter institutions ;;
  mapM institution_record insts.

Definition main : M unit :=
  response <~ requests_get URL ;;
  _ <~ raise_for_status response ;;
  institutions <~ response_json response ;;
  records <~ lift (parsed institutions) ;;
  _ <~ dump_to "school_codes.txt" (VList records) ;;
  print ("Wrote " ++ str_of_int (Z.of_nat (List.length records))
         ++ " schools to school_codes.txt").

End GetInstitutions.

(** ** A parser for the documented grammar *)

(** The library documents [fromisoformat] for the strings
    [YYYY-MM-DD[*HH[:MM[:SS[.fff[fff]]]][+HH:MM[:SS[.ffffff]]]]], where [*]
    is any one character.  [fromisoformat_documented] reads exactly these; it
    instantiates the parser in the examples. *)

Definition obind {A B : Type} (o : option A) (k : A -> option B) : option B :=
  match o with
  | Some a => k a
  | None => None
  end.

Notation "x <-? o ;; k" := (obind o (fun x => k))
  (at level 61, o at next level, right associativity).

Notation "' p <-? o ;; k" := (obind o (fun p => k))
  (at level 61, p pattern, o at next level, right associativity).

Definition digit_of (c : ascii) : option Z :=
  let n := nat_of_ascii c in
  if ((48 <=? n) && (n <=? 57))%nat then Some (Z.of_nat (n - 48)) else None.

(** Exactly [k] digits, then the rest. *)
Fixpoint read_digits (k : nat) (acc : Z) (s : string) : option (Z * string) :=
  match k with
  | O => Some (acc, s)
  | S k' =>
      match s with
      | EmptyString => None
      | String c rest =>
          d <-? digit_of c ;;
          read_digits k' (10 * acc + d)%Z rest
      end
  end.

Definition expect (c : ascii) (s : string) : option string :=
  match s with
  | EmptyString => None
  | String c' rest => if Ascii.eqb c c' then Some rest else None
  end.

Definition is_leap (y : Z) : bool :=
  ((y mod 4 =? 0) && (negb (y mod 100 =? 0) || (y mod 400 =? 0)))%Z.

Definition days_in_month (y m : Z) : Z :=
  if (m =? 2)%Z then (if is_leap y then 29 else 28)%Z
  else if ((m =? 4) || (m =? 6) || (m =? 9) || (m =? 11))%Z then 30%Z
  else 31%Z.

Definition valid_date (y m d : Z) : bool :=
  ((1 <=? y) && (y <=? 9999) && (1 <=? m) && (m <=? 12)
   && (1 <=? d) && (d <=? days_in_month y m))%Z.

Definition valid_time (h mi s : Z) : bool :=
  ((h <? 24) && (mi <? 60) && (s <? 60))%Z.

(** [HH[:MM[:SS[.fff[fff]]]]], the whole of [s]: hour, minute, second,
    microsecond. *)
Definition read_clock (s : string) : option (Z * Z * Z * Z) :=
  '(h, s1) <-? read_digits 2 0 s ;;
  match s1 with
  | EmptyString => Some (h, 0, 0, 0)%Z
  | _ =>
      s2 <-? expect ":" s1 ;;
      '(mi, s3) <-? read_digits 2 0 s2 ;;
      match s3 with
      | EmptyString => Some (h, mi, 0, 0)%Z
      | _ =>
          s4 <-? expect ":" s3 ;;
          '(sec, s5) <-? read_digits 2 0 s4 ;;
          match s5 with
          | EmptyString => Some (h, mi, sec, 0)%Z
          | _ =>
              frac <-? expect "." s5 ;;
              if (String.length frac =? 3)%nat
              then '(ms, _) <-? read_digits 3 0 frac ;;
                   Some (h, mi, sec, ms * 1000)%Z
              else if (String.length frac =? 6)%nat
              then '(us, _) <-? read_digits 6 0 frac ;;
                   Some (h, mi, sec, us)
              else None
          end
      end
  end.

(** The clock part and, after the first sign, the offset part. *)
Fixpoint split_at_sign (s : string) : string * option (bool * string) :=
  match s with
  | EmptyString => (EmptyString, None)
  | String c rest =>
      if Ascii.eqb c "+" then (EmptyString, Some (true, rest))
      else if Ascii.eqb c "-" then (EmptyString, Some (false, rest))
      else let '(clock, zone) := split_at_sign rest in (String c clock, zone)
  end.

(** [HH:MM], [HH:MM:SS] or [HH:MM:SS.ffffff] after the sign: the offset
    in microseconds, strictly within a day. *)
Definition read_offset (positive : bool) (z : string) : option Z :=
  let n := String.length z in
  if ((n =? 5) || (n =? 8) || (n =? 15))%nat
  then '(h, mi, sec, us) <-? read_clock z ;;
       let off := (((h * 3600 + mi * 60 + sec) * 1000000 + us)
                   * (if positive then 1 else -1))%Z in
       if (Z.abs off <? 86400000000)%Z then Some off else None
  else None.

Definition read_datetime (s : string) : option (datetime * option Z) :=
  '(y, s1) <-? read_digits 4 0 s ;;
  s2 <-? expect "-" s1 ;;
  '(m, s3) <-? read_digits 2 0 s2 ;;
  s4 <-? expect "-" s3 ;;
  '(d, s5) <-? read_digits 2 0 s4 ;;
  if valid_date y m d
  then match s5 with
       | EmptyString =>
           Some ({| year := y; month := m; day := d;
                    hour := 0; minute := 0; second := 0; microsecond := 0 |}, None)
       | String _ time =>
           let '(clock, zone) := split_at_sign time in
           '(h, mi, sec, us) <-? read_clock clock ;;
           if valid_time h mi sec
           then
             let dt := {| year := y; month := m; day := d;
                          hour := h; minute := mi; second := sec;
                          microsecond := us |} in
             match zone with
             | None => Some (dt, None)
             | Some (positive, z) =>
                 off <-? read_offset positive z ;;
                 Some (dt, Some off)
             end
           else None
       end
  else None.

Definition fromisoformat_documented (s : string) : iso_outcome :=
  match read_datetime s with
  | Some (dt, None) => IsoNaive dt
  | Some (dt, Some off) => IsoAware dt off
  | None => IsoValueError
  end.

Definition midnight (y m d : Z) : datetime :=
  {| year := y; month := m; day := d;
     hour := 0; minute := 0; second := 0; microsecond := 0 |}.

(** ** Vocabulary of the statements *)

(** *** Values *)

Definition first_char (s : string) : option ascii :=
  match s with
  | EmptyString => None
  | String c _ => Some c
  end.

Fixpoint last_char (s : string) : option ascii :=
  match s with
  | EmptyString => None
  | String c EmptyString => Some c
  | String _ rest => last_char rest
  end.

(** The value stored under [k], null when there is none. *)
Definition field (k : string) (v : pyval) : pyval :=
  match v with
  | VDict kvs =>
      match lookup k kvs with
      | Some x => x
      | None => VNone
      end
  | _ => VNone
  end.

(** [v] is an object that holds [x] under [k]. *)
Definition has_field (v : pyval) (k : string) (x : pyval) : Prop :=
  match v with
  | VDict kvs => lookup k kvs = Some x
  | _ => False
  end.

(** The elements of a list value; no elements for anything else. *)
Definition elements (v : pyval) : list pyval :=
  match v with
  | VList xs => xs
  | _ => []
  end.

Definition is_dict (v : pyval) : Prop := exists kvs, v = VDict kvs.

Definition is_string (v : pyval) : Prop := exists s, v = VStr s.

(** The text a raw entry holds under [k]: the string itself, or the empty
    string when the field is absent, null or otherwise falsy. *)
Definition text_field (kvs : list (string * pyval)) (k s : string) : Prop :=
  lookup k kvs = Some (VStr s)
  \/ (s = ""
      /\ match lookup k kvs with
         | None => True
         | Some v => truthy v = false
         end).

(** *** The GE list *)

(** [academicYear] is absent, falsy or an object. *)
Definition year_ok (kvs : list (string * pyval)) : Prop :=
  match lookup "academicYear" kvs with
  | None => True
  | Some v => truthy v = false \/ is_dict v
  end.

(** What the GE-list transformer returns around [courses]. *)
Definition ge_output (data : pyval) (courses : list pyval) : pyval :=
  VDict [("institutionName", field "institutionName" data);
         ("academicYear", field "code" (field "academicYear" data));
         ("listType", field "listType" data);
         ("courses", VList courses)].

(** *** Runs and the clock *)

(** Two worlds whose clocks show the same readings from now on. *)
Definition same_clock (w1 w2 : World) : Prop :=
  forall k : nat,
    utcnow_at w1 (clock_reads w1 + k) = utcnow_at w2 (clock_reads w2 + k).

(** A computation whose result depends on the world through the clock
    alone. *)
Definition clock_determined {A : Type} (m : M A) : Prop :=
  forall w1 w2,
    same_clock w1 w2 ->
    fst (m w1) = fst (m w2) /\ same_clock (snd (m w1)) (snd (m w2)).

(** *** Articulations *)

(** An articulation entry whose [type] is the string [Course]. *)
Definition is_course (entry : pyval) : bool := is_str "Course" (field "type" entry).

(** The articulation entries of a department group. *)
Definition dept_entries (dept : pyval) : list pyval :=
  elements (field "articulations" dept).

(** The destination courses nested in one item. *)
Definition nested_courses (item : pyval) : list pyval :=
  elements (field "items" item).

(** An item that is an object without a nested [items]. *)
Definition lacks_nested (item : pyval) : Prop :=
  exists kvs, item = VDict kvs /\ lookup "items" kvs = None.

(** What [transfers_to] always is: a non-empty sequence of strings. *)
Definition filled (destinations : pyval) : Prop :=
  exists xs, destinations = VList xs /\ xs <> [] /\ Forall is_string xs.

(** *** The fetch *)

(** The message of a failed fetch: [requests.get] raised, or
    [raise_for_status] did. *)
Definition fetch_failure (outcome : get_outcome) : option string :=
  match outcome with
  | GetRaises _ msg => Some msg
  | GetReturns r => status_error r
  end.

(** The world after [lines] were printed and nothing else happened. *)
Definition printed (w : World) (lines : list string) : World :=
  {| http := http w; utcnow_at := utcnow_at w; clock_reads := clock_reads w;
     stdout := (stdout w ++ map codes lines)%list; files := files w;
     unwritable := unwritable w; stdout_encodes := stdout_encodes w |}.

(** *** Institutions *)

(** An institution whose [names], when it has any, starts with an object
    that has a [name]. *)
Definition well_named (inst : pyval) : Prop :=
  exists kvs,
    inst = VDict kvs
    /\ match lookup "names" kvs with
       | None => True
       | Some (VList (first :: _)) => exists name, has_field first "name" name
       | Some v => truthy v = false
       end.

(** The [name] of the first of [names]; null when there is no first. *)
Definition school_name (inst : pyval) : pyval :=
  match elements (field "names" inst) with
  | first :: _ => field "name" first
  | [] => VNone
  end.

Definition has_id (inst : pyval) : Prop := exists code, has_field inst "id" code.

Definition expected_record (inst : pyval) : pyval :=
  VDict [("schoolName", school_name inst); ("code", field "id" inst)].

(** ** Sample worlds and documents *)

(** *** Worlds *)

Definition no_network (url : string) : get_outcome :=
  GetRaises ConnectionError "connection refused".

(** A world whose clock shows [now] at every reading. *)
Definition world_at (now : datetime) : World :=
  {| http := no_network; utcnow_at := fun _ => now; clock_reads := 0;
     stdout := []; files := [];
     unwritable := fun _ => false; stdout_encodes := fun _ => true |}.

(** A world later in a run: the clock was read, lines were printed. *)
Definition later_world (now : datetime) : World :=
  {| http := no_network; utcnow_at := fun _ => now; clock_reads := 3;
     stdout := [codes "Saved 0 courses to /tmp/out.json"]; files := [];
     unwritable := fun _ => false; stdout_encodes := fun _ => true |}.

(** A world whose network answers every request with a 404. *)
Definition not_found_world : World :=
  {| http := fun _ =>
               GetReturns {| status_error := Some "404 Client Error: Not Found";
                             json_body := Raise ValueError |};
     utcnow_at := fun _ => midnight 2024 1 1; clock_reads := 0;
     stdout := []; files := [];
     unwritable := fun _ => false; stdout_encodes := fun _ => true |}.

(** A decoder for the examples: it refuses everything. *)
Definition refuse_all (s : string) : result pyval := Raise ValueError.

(** *** GE-list documents *)

Definition aware_end : string := "2030-01-01T00:00:00+00:00".

Definition math_100 : pyval :=
  VDict [("identifier", VStr "MATH 100"); ("courseTitle", VStr "")].

Definition calculus : pyval :=
  VDict [("identifier", VStr ""); ("courseTitle", VStr "Calculus")].

Definition nameless : pyval :=
  VDict [("identifier", VStr ""); ("courseTitle", VStr "")].

(** The course of the end-to-end scenario. *)
Definition engl_1a : pyval :=
  VDict [("identifier", VStr "ENGL 1A");
         ("courseTitle", VStr "Composition");
         ("transferAreas", VList [VDict [("code", VStr "C2")]]);
         ("beginDate", VStr "2020-08-01");
         ("endDate", VNone)].

(** The transfer-area list of the specification's example. *)
Definition areas_a1_b2 : pyval :=
  VDict [("transferAreas",
          VList [VDict [("code", VStr "A1")]; VDict []; VDict [("code", VStr "B2")]])].

(** A document with nothing but its list type. *)
Definition bare_document : pyval := VDict [("listType", VStr "CSUGE")].

(** A document whose one course ends on 2025-01-01. *)
Definition ending_2025 : pyval :=
  VDict [("institutionName", VStr "Sample College");
         ("courseInformationList",
          VList [VDict [("identifier", VStr "HIST 10");
                        ("courseTitle", VStr "World History");
                        ("endDate", VStr "2025-01-01")]])].

(** *** Articulation entries *)

Definition cs_101 : pyval :=
  VDict [("prefix", VStr "CS"); ("courseNumber", VStr "101");
         ("courseTitle", VStr "Intro")].

Definition course_info_math : pyval :=
  VDict [("prefix", VStr "MATH"); ("courseNumber", VStr "1A");
         ("courseTitle", VStr "Calculus I"); ("department", VStr "Mathematics")].

(** An entry of type [Course] with the given [sendingArticulation]. *)
Definition course_with (sending : pyval) : pyval :=
  VDict [("type", VStr "Course"); ("course", course_info_math);
         ("sendingArticulation", sending)].

(** An entry of type [Course] with no [sendingArticulation]. *)
Definition unmapped : pyval :=
  VDict [("type", VStr "Course"); ("course", course_info_math)].

(** A placeholder entry, of another type. *)
Definition placeholder : pyval := VDict [("type", VStr "Series")].

(** One item whose nested list is there and empty. *)
Definition empty_nested : pyval :=
  course_with (VDict [("items", VList [VDict [("items", VList [])]])]).

(** One item whose nested list holds CS 101. *)
Definition mapped_to_cs_101 : pyval :=
  course_with (VDict [("items", VList [VDict [("items", VList [cs_101])]])]).

Definition sample_departments : list pyval :=
  [VDict [("name", VStr "Mathematics");
          ("articulations", VList [mapped_to_cs_101; placeholder; unmapped])]].

(** An entry of type [Course] whose course carries [minUnits]. *)
Definition with_units (units : pyval) : pyval :=
  VDict [("type", VStr "Course");
         ("course",
          VDict [("prefix", VStr "BIOL"); ("courseNumber", VInt 5);
                 ("courseTitle", VStr "Anatomy"); ("minUnits", units);
                 ("department", VStr "Biology")])].

(** *** Institution records *)

Definition berkeley : pyval :=
  VDict [("id", VInt 79);
         ("names", VList [VDict [("name", VStr "University of California, Berkeley")]])].

Definition unnamed_school : pyval := VDict [("id", VInt 12); ("names", VList [])].

Definition without_id : pyval :=
  VDict [("names", VList [VDict [("name", VStr "Nowhere College")]])].

(** ** Vocabulary of the further properties *)

(** A computation that does nothing to the world but read the clock, at
    most [n] times. *)
Definition quiet (n : nat) {A : Type} (m : M A) : Prop :=
  forall w : World,
    http (snd (m w)) = http w
    /\ utcnow_at (snd (m w)) = utcnow_at w
    /\ stdout (snd (m w)) = stdout w
    /\ files (snd (m w)) = files w
    /\ (clock_reads w <= clock_reads (snd (m w)))%nat
    /\ (clock_reads (snd (m w)) <= clock_reads w + n)%nat.

(** The raw courses of a GE-list document. *)
Definition raw_courses (data : pyval) : list pyval :=
  elements (field "courseInformationList" data).

(** A raw course with no end date to speak of: absent, null, empty. *)
Definition never_ends (c : pyval) : Prop := truthy (field "endDate" c) = false.

(** The URL that both GE-list scripts request. *)
Definition ge_url (institution_id academic_year_id : Z) (list_type : string) : string :=
  "https://www.assist.org/api/transferability/courses"
  ++ "?institutionId=" ++ str_of_int institution_id
  ++ "&academicYearId=" ++ str_of_int academic_year_id
  ++ "&listType=" ++ list_type.

(** Where the GE-list scripts write. *)
Definition out_path (script_dir out_file : string) : string :=
  if isabs out_file then out_file else path_join script_dir out_file.

(** The world after [line] was printed as well. *)
Definition and_printed (w : World) (line : string) : World :=
  {| http := http w; utcnow_at := utcnow_at w; clock_reads := clock_reads w;
     stdout := (stdout w ++ [codes line])%list; files := files w;
     unwritable := unwritable w; stdout_encodes := stdout_encodes w |}.

(** The world after [data] was dumped to [path]. *)
Definition and_dumped (w : World) (path : string) (data : pyval) : World :=
  {| http := http w; utcnow_at := utcnow_at w; clock_reads := clock_reads w;
     stdout := stdout w; files := (files w ++ [(path, data)])%list;
     unwritable := unwritable w; stdout_encodes := stdout_encodes w |}.


(** What calgetc.py adds to the document of IGETC.py. *)
Definition echo_request (list_type : string) (out : pyval) : pyval :=
  match out with
  | VDict [name; year; reported; courses] =>
      VDict [name; year; reported; ("listTypeRequested", VStr list_type); courses]
  | _ => out
  end.

(** A response that went through, carrying [data]. *)
Definition answers (w : World) (url : string) (data : pyval) : Prop :=
  exists r, http w url = GetReturns r
            /\ status_error r = None
            /\ json_body r = Ok data.

(** A world whose network answers every request with [data]. *)
Definition serving (data : pyval) (now : datetime) : World :=
  {| http := fun _ => GetReturns {| status_error := None; json_body := Ok data |};
     utcnow_at := fun _ => now; clock_reads := 0;
     stdout := []; files := [];
     unwritable := fun _ => false; stdout_encodes := fun _ => true |}.


(** The four encoded parts of a raw agreement, decoded. *)
Definition decodes (json_loads : string -> result pyval)
    (raw_data receiving sending academic_year articulations : pyval) : Prop :=
  exists res r s y a,
    has_field raw_data "result" res
    /\ has_field res "receivingInstitution" (VStr r)
    /\ json_loads r = Ok receiving
    /\ has_field res "sendingInstitution" (VStr s)
    /\ json_loads s = Ok sending
    /\ has_field res "academicYear" (VStr y)
    /\ json_loads y = Ok academic_year
    /\ has_field res "articulations" (VStr a)
    /\ json_loads a = Ok articulations.

(** An institution whose first name is [name]. *)
Definition first_named (institution name : pyval) : Prop :=
  exists first rest,
    has_field institution "names" (VList (first :: rest))
    /\ has_field first "name" name.

(** The keys a course must have. *)
Definition required_keys : list string :=
  ["prefix"; "courseNumber"; "courseTitle"; "department"].

(** A decoder for the examples: four names for four documents. *)
Definition sample_loads (s : string) : result pyval :=
  if String.eqb s "<receiving>"
  then Ok (VDict [("names", VList [VDict [("name", VStr "UC Berkeley")]])])
  else if String.eqb s "<sending>"
  then Ok (VDict [("names", VList [VDict [("name", VStr "De Anza College")]])])
  else if String.eqb s "<sending, unnamed>"
  then Ok (VDict [("names", VList [])])
  else if String.eqb s "<year>"
  then Ok (VDict [("code", VStr "2024-2025")])
  else if String.eqb s "<articulations>"
  then Ok (VList sample_departments)
  else Raise ValueError.

Definition sample_agreement : pyval :=
  VDict [("result",
          VDict [("receivingInstitution", VStr "<receiving>");
                 ("sendingInstitution", VStr "<sending>");
                 ("academicYear", VStr "<year>");
                 ("articulations", VStr "<articulations>")])].

Definition unnamed_agreement : pyval :=
  VDict [("result",
          VDict [("receivingInstitution", VStr "<receiving>");
                 ("sendingInstitution", VStr "<sending, unnamed>");
                 ("academicYear", VStr "<year>");
                 ("articulations", VStr "<articulations>")])].


(** The world after [line], any sequence of code points, was printed as
    well. *)
Definition and_printed_line (w : World) (line : list N) : World :=
  {| http := http w; utcnow_at := utcnow_at w; clock_reads := clock_reads w;
     stdout := (stdout w ++ [line])%list; files := files w;
     unwritable := unwritable w; stdout_encodes := stdout_encodes w |}.

(** [serving], on a terminal whose encoding stops at code point 255. *)
Definition latin_terminal (data : pyval) (now : datetime) : World :=
  {| http := fun _ => GetReturns {| status_error := None; json_body := Ok data |};
     utcnow_at := fun _ => now; clock_reads := 0;
     stdout := []; files := [];
     unwritable := fun _ => false; stdout_encodes := fun _ => false |}.

(** [serving], where no file can be opened for writing. *)
Definition read_only (data : pyval) (now : datetime) : World :=
  {| http := fun _ => GetReturns {| status_error := None; json_body := Ok data |};
     utcnow_at := fun _ => now; clock_reads := 0;
     stdout := []; files := [];
     unwritable := fun _ => true; stdout_encodes := fun _ => true |}.


(** The first of the required keys, in their order, that a course lacks. *)
Definition first_missing (info : list (string * pyval)) : option string :=
  find (fun k => match lookup k info with
                 | None => true
                 | Some _ => false
                 end)
       required_keys.


(** * Verified properties *)

(** ** Strings: what [strip] leaves at both ends *)

Lemma lstrip_first (p : ascii -> bool) (s : string) (c : ascii) :
  first_char (lstrip p s) = Some c -> p c = false.
Proof.
  induction s as [| a rest IH]; simpl; [discriminate |].
  destruct (p a) eqn:Ha; [exact IH |].
  simpl. intros E. injection E as <-. exact Ha.
Qed.

Lemma rstrip_first (p : ascii -> bool) (s : string) (c : ascii) :
  first_char (rstrip p s) = Some c -> first_char s = Some c.
Proof.
  destruct s as [| a rest]; simpl; [discriminate |].
  destruct (rstrip p rest); [destruct (p a) |]; simpl; easy.
Qed.

Lemma rstrip_last (p : ascii -> bool) (s : string) (c : ascii) :
  last_char (rstrip p s) = Some c -> p c = false.
Proof.
  induction s as [| a rest IH]; simpl; [discriminate |].
  destruct (rstrip p rest) as [| b kept] eqn:E.
  - destruct (p a) eqn:Ha; simpl; [discriminate |].
    intros H. injection H as <-. exact Ha.
  - exact IH.
Qed.

Lemma strip_first (p : ascii -> bool) (s : string) (c : ascii) :
  first_char (strip p s) = Some c -> p c = false.
Proof.
  unfold strip. intros H. apply rstrip_first in H. now apply lstrip_first in H.
Qed.

Lemma strip_last (p : ascii -> bool) (s : string) (c : ascii) :
  last_char (strip p s) = Some c -> p c = false.
Proof. unfold strip. apply rstrip_last. Qed.

Lemma strip_empty (p : ascii -> bool) : strip p "" = "".
Proof. reflexivity. Qed.

(** ** Values: truth and lookup *)

Lemma truthy_str_false (s : string) : truthy (VStr s) = false -> s = "".
Proof.
  simpl. destruct (String.eqb_spec s ""); [trivial | discriminate].
Qed.

Lemma py_or_text (kvs : list (string * pyval)) (k s : string) :
  text_field kvs k s ->
  exists v, get (VDict kvs) k = Ok v
            /\ strip_method (py_or v (VStr "")) = Ok (strip isspace s).
Proof.
  unfold text_field, get, get_default.
  intros [E | [-> E]].
  - rewrite E. eexists; split; [reflexivity |].
    unfold py_or. destruct (truthy (VStr s)) eqn:T; [reflexivity |].
    apply truthy_str_false in T. now subst.
  - destruct (lookup k kvs) as [v |]; eexists; (split; [reflexivity |]).
    + unfold py_or. now rewrite E.
    + reflexivity.
Qed.

(** ** The approval rule *)

Lemma lex_lt_irrefl (a : list Z) : lex_lt a a = false.
Proof.
  induction a as [| x a IH]; simpl; [reflexivity |].
  rewrite Z.ltb_irrefl, Z.eqb_refl, IH. reflexivity.
Qed.

(** An end date equal to the clock reading is not after it. *)
Lemma dt_gt_irrefl (d : datetime) : dt_gt d d = false.
Proof. apply lex_lt_irrefl. Qed.

Section ApprovalRule.

Variable fromisoformat : string -> iso_outcome.

(** C1 (amended): the rule answers true, without reading the clock, when the
    end date is absent or the empty string; for a non-empty string that the
    parser reads as a naive datetime it answers whether that datetime is
    strictly after the reading of the UTC clock taken at the call; for a
    string the parser refuses it answers false, again without reading the
    clock. *)
Theorem approval_rule (w : World) :
  IGETC.is_currently_approved fromisoformat VNone w = (Ok true, w)
  /\ IGETC.is_currently_approved fromisoformat (VStr "") w = (Ok true, w)
  /\ (forall s d,
        s <> "" -> fromisoformat s = IsoNaive d ->
        fst (IGETC.is_currently_approved fromisoformat (VStr s) w)
        = Ok (dt_gt d (utcnow_at w (clock_reads w))))
  /\ (forall s,
        s <> "" -> fromisoformat s = IsoValueError ->
        IGETC.is_currently_approved fromisoformat (VStr s) w = (Ok false, w)).
Proof.
  repeat split.
  - intros s d Hs Hp. unfold IGETC.is_currently_approved. simpl.
    destruct (String.eqb_spec s ""); [contradiction |]. simpl.
    now rewrite Hp.
  - intros s Hs Hp. unfold IGETC.is_currently_approved. simpl.
    destruct (String.eqb_spec s ""); [contradiction |]. simpl.
    now rewrite Hp.
Qed.

(** An aware end date: the clock is read, then the comparison raises. *)
Lemma approval_rule_aware (w : World) (s : string) (d : datetime) (off : Z) :
  s <> "" -> fromisoformat s = IsoAware d off ->
  fst (IGETC.is_currently_approved fromisoformat (VStr s) w) = Raise TypeError.
Proof.
  intros Hs Hp. unfold IGETC.is_currently_approved. simpl.
  destruct (String.eqb_spec s ""); [contradiction |]. simpl.
  now rewrite Hp.
Qed.

End ApprovalRule.

(** C1, witness: the end date 2999-01-01 seen on 2024-01-01. *)
Lemma approval_rule_witness :
  fst (IGETC.is_currently_approved fromisoformat_documented (VStr "2999-01-01")
         (world_at (midnight 2024 1 1)))
  = Ok true.
Proof.
  destruct (approval_rule fromisoformat_documented (world_at (midnight 2024 1 1)))
    as (_ & _ & naive & _).
  rewrite (naive "2999-01-01" (midnight 2999 1 1)).
  - reflexivity.
  - discriminate.
  - reflexivity.
Defined.

(** C1, as stated, fails: this end date is an ISO-8601 date-time, the parser
    reads it, and the rule raises [TypeError] instead of answering. *)
Lemma approval_rule_aware_end_date_raises :
  fromisoformat_documented aware_end = IsoAware (midnight 2030 1 1) 0
  /\ fst (IGETC.is_currently_approved fromisoformat_documented (VStr aware_end)
            (world_at (midnight 2024 1 1)))
     = Raise TypeError.
Proof. split; reflexivity. Qed.

(** The examples of the specification, on 2024-01-01. *)
Example approval_examples :
  let rule v := fst (IGETC.is_currently_approved fromisoformat_documented v
                       (world_at (midnight 2024 1 1))) in
  rule (VStr "2999-01-01") = Ok true
  /\ rule (VStr "2000-01-01") = Ok false
  /\ rule (VStr "2024-01-01") = Ok false
  /\ rule (VStr "not-a-date") = Ok false.
Proof. repeat split. Qed.

(** ** The GE-list transformer: one course *)

(** Running one turn of the loop: what the emitted dict holds. *)
Lemma course_entry_fields (fromisoformat : string -> iso_outcome)
    (c entry : pyval) (w w' : World) :
  IGETC.course_entry fromisoformat c w = (Ok entry, w') ->
  exists name areas approved,
    IGETC.course_name c = Ok name
    /\ IGETC.transfer_areas c = Ok areas
    /\ entry = VDict [("course", VStr name);
                      ("transferAreas", VList areas);
                      ("approvedDate", field "beginDate" c);
                      ("approvedTerm", field "beginTermCode" c);
                      ("removedDate", field "endDate" c);
                      ("removedTerm", field "endTermCode" c);
                      ("isCurrentlyApproved", VBool approved)]
    /\ IGETC.is_currently_approved fromisoformat (field "endDate" c) w
       = (Ok approved, w').
Proof.
  unfold IGETC.course_entry, mbind, lift, ret.
  destruct (IGETC.course_name c) as [name | e] eqn:En; [| discriminate].
  destruct (IGETC.transfer_areas c) as [areas | e] eqn:Ea; [| discriminate].
  destruct c as [| b | n | r | s | xs | kvs]; try discriminate.
  unfold get, get_default, field.
  destruct (lookup "endDate" kvs), (lookup "beginDate" kvs),
    (lookup "beginTermCode" kvs), (lookup "endTermCode" kvs);
    (match goal with
     | |- context [IGETC.is_currently_approved ?f ?v ?x] =>
         destruct (IGETC.is_currently_approved f v x) as [[approved | e] w1] eqn:Er
     end; [| discriminate]);
    intros H; injection H as <- <-;
    exists name, areas, approved; repeat split; exact Er.
Qed.

(** C3: the [course] field is the trimmed identifier and the trimmed title
    joined by " - ", with the spaces and hyphens at both ends stripped; the
    emitted dict carries that name; a name neither begins nor ends with a
    space or a hyphen, so it is never " - "; and the three examples. *)
Theorem course_name_normalized :
  (forall kvs identifier title,
      text_field kvs "identifier" identifier ->
      text_field kvs "courseTitle" title ->
      IGETC.course_name (VDict kvs)
      = Ok (strip space_or_hyphen
              (strip isspace identifier ++ " - " ++ strip isspace title)))
  /\ (forall fromisoformat c w entry w',
        IGETC.course_entry fromisoformat c w = (Ok entry, w') ->
        exists name,
          IGETC.course_name c = Ok name /\ field "course" entry = VStr name)
  /\ (forall c name,
        IGETC.course_name c = Ok name ->
        name <> " - "
        /\ (forall ch, first_char name = Some ch -> space_or_hyphen ch = false)
        /\ (forall ch, last_char name = Some ch -> space_or_hyphen ch = false))
  /\ IGETC.course_name math_100 = Ok "MATH 100"
  /\ IGETC.course_name calculus = Ok "Calculus"
  /\ IGETC.course_name nameless = Ok "".
Proof.
  split; [| split; [| split; [| repeat split]]].
  - intros kvs identifier title Hi Ht.
    destruct (py_or_text _ _ _ Hi) as (i & Ei & Si).
    destruct (py_or_text _ _ _ Ht) as (t & Et & St).
    unfold IGETC.course_name.
    rewrite Ei; cbn [bind]. rewrite Si; cbn [bind].
    rewrite Et; cbn [bind]. rewrite St; reflexivity.
  - intros fromisoformat c w entry w' H.
    destruct (course_entry_fields _ _ _ _ _ H) as (name & areas & ok & En & _ & -> & _).
    exists name. split; [exact En | reflexivity].
  - intros c name H.
    assert (S : exists raw, name = strip space_or_hyphen raw).
    { unfold IGETC.course_name in H.
      destruct (get c "identifier"); [| discriminate]. simpl in H.
      destruct (strip_method _); [| discriminate]. simpl in H.
      destruct (get c "courseTitle"); [| discriminate]. simpl in H.
      destruct (strip_method _); [| discriminate]. simpl in H.
      injection H as <-. eexists; reflexivity. }
    destruct S as (raw & ->).
    assert (F : forall ch, first_char (strip space_or_hyphen raw) = Some ch ->
                           space_or_hyphen ch = false)
      by (intro; apply strip_first).
    repeat split.
    + intros E. rewrite E in F. specialize (F " "%char eq_refl). discriminate.
    + exact F.
    + intro; apply strip_last.
Qed.

(** C3, witness: an entry with a padded identifier and no title field. *)
Lemma course_name_normalized_witness :
  IGETC.course_name (VDict [("identifier", VStr "  MATH 100 ")])
  = Ok "MATH 100".
Proof.
  destruct course_name_normalized as (shape & _).
  rewrite (shape [("identifier", VStr "  MATH 100 ")] "  MATH 100 " "").
  - reflexivity.
  - left. reflexivity.
  - right. split; [reflexivity | exact I].
Defined.

(** ** The GE-list transformer: transfer areas *)

Lemma get_of_dict (a : pyval) (k : string) :
  is_dict a -> get a k = Ok (field k a).
Proof.
  intros [kvs ->]. unfold get, get_default, field.
  now destruct (lookup k kvs).
Qed.

Lemma select_codes_of_dicts (areas : list pyval) :
  Forall is_dict areas ->
  IGETC.select_codes areas = Ok (filter truthy (map (field "code") areas)).
Proof.
  induction 1 as [| a rest Ha _ IH]; [reflexivity |].
  cbn [IGETC.select_codes map filter].
  rewrite (get_of_dict a "code" Ha); cbn [bind].
  destruct (truthy (field "code" a)); [| exact IH].
  now rewrite IH.
Qed.

Lemma select_codes_truthy (areas codes : list pyval) :
  IGETC.select_codes areas = Ok codes ->
  Forall (fun v => truthy v = true) codes.
Proof.
  revert codes. induction areas as [| a rest IH]; intros codes; cbn [IGETC.select_codes].
  - intros H. injection H as <-. constructor.
  - destruct (get a "code") as [cond | e]; [| discriminate]. cbn [bind].
    destruct (truthy cond) eqn:T; [| apply IH].
    destruct (IGETC.select_codes rest) as [later | e]; [| discriminate].
    cbn [bind]. intros H. injection H as <-.
    constructor; [exact T | now apply IH].
Qed.

(** C5: on a list of objects [transferAreas] is the [code] fields in order,
    the falsy and the absent ones dropped; an absent or null list gives the
    empty sequence; whatever the entry, no code kept is falsy, so none is
    null; the emitted dict carries the sequence; and the example. *)
Theorem transfer_areas_codes :
  (forall kvs areas,
      lookup "transferAreas" kvs = Some (VList areas) ->
      Forall is_dict areas ->
      IGETC.transfer_areas (VDict kvs)
      = Ok (filter truthy (map (field "code") areas)))
  /\ (forall kvs,
        lookup "transferAreas" kvs = None
        \/ lookup "transferAreas" kvs = Some VNone ->
        IGETC.transfer_areas (VDict kvs) = Ok [])
  /\ (forall c codes,
        IGETC.transfer_areas c = Ok codes ->
        Forall (fun v => truthy v = true) codes /\ ~ In VNone codes)
  /\ (forall fromisoformat c w entry w',
        IGETC.course_entry fromisoformat c w = (Ok entry, w') ->
        exists codes,
          IGETC.transfer_areas c = Ok codes
          /\ field "transferAreas" entry = VList codes)
  /\ IGETC.transfer_areas areas_a1_b2 = Ok [VStr "A1"; VStr "B2"].
Proof.
  split; [| split; [| split; [| split]]].
  - intros kvs areas E Hd.
    unfold IGETC.transfer_areas, get, get_default. rewrite E. cbn [bind].
    destruct areas as [| a rest]; [reflexivity |].
    unfold py_or. cbn [truthy iter bind].
    now apply select_codes_of_dicts.
  - intros kvs [E | E]; unfold IGETC.transfer_areas, get, get_default;
      rewrite E; reflexivity.
  - intros c codes H.
    assert (T : Forall (fun v => truthy v = true) codes).
    { unfold IGETC.transfer_areas in H.
      destruct (get c "transferAreas"); [| discriminate]. cbn [bind] in H.
      destruct (iter _); [| discriminate]. cbn [bind] in H.
      now apply select_codes_truthy in H. }
    split; [exact T |].
    intros Hin. rewrite Forall_forall in T. now specialize (T _ Hin).
  - intros fromisoformat c w entry w' H.
    destruct (course_entry_fields _ _ _ _ _ H) as (name & areas & ok & _ & Ea & -> & _).
    exists areas. split; [exact Ea | reflexivity].
  - reflexivity.
Qed.

(** C5, witness: two areas, the second without a code. *)
Lemma transfer_areas_codes_witness :
  IGETC.transfer_areas
    (VDict [("transferAreas", VList [VDict [("code", VStr "C2")]; VDict []])])
  = Ok [VStr "C2"].
Proof.
  destruct transfer_areas_codes as (listed & _).
  rewrite (listed _ [VDict [("code", VStr "C2")]; VDict []]).
  - reflexivity.
  - reflexivity.
  - repeat constructor; eexists; reflexivity.
Defined.

(** ** The GE-list transformer: missing list, missing metadata *)

Lemma year_code (y : pyval) :
  truthy y = false \/ is_dict y ->
  get (py_or y (VDict [])) "code" = Ok (field "code" y).
Proof.
  unfold py_or. intros [F | [d ->]].
  - rewrite F. destruct y as [| | | | | | d]; try reflexivity.
    destruct d; [reflexivity | discriminate].
  - destruct d as [| kv d]; [reflexivity |].
    apply get_of_dict. eexists; reflexivity.
Qed.

Lemma ge_document_total (kvs : list (string * pyval)) (courses : list pyval) :
  year_ok kvs ->
  IGETC.ge_document (VDict kvs) courses = Ok (ge_output (VDict kvs) courses).
Proof.
  unfold year_ok, IGETC.ge_document, ge_output. intros Hy.
  rewrite !(get_of_dict (VDict kvs)) by (eexists; reflexivity). cbn [bind].
  assert (E : get (py_or (field "academicYear" (VDict kvs)) (VDict [])) "code"
              = Ok (field "code" (field "academicYear" (VDict kvs)))).
  { unfold field at 1 3.
    destruct (lookup "academicYear" kvs) as [y |]; [now apply year_code | reflexivity]. }
  rewrite E. reflexivity.
Qed.

(** C7: a document without its course list, or with a null one, comes out
    with an empty [courses] and leaves the world as it was; whatever the
    courses, the metadata step does not raise, and a field the document
    lacks comes out null. *)
Theorem ge_transform_missing_parts (fromisoformat : string -> iso_outcome)
    (kvs : list (string * pyval)) :
  year_ok kvs ->
  (forall w,
      lookup "courseInformationList" kvs = None
      \/ lookup "courseInformationList" kvs = Some VNone ->
      IGETC.transform fromisoformat (VDict kvs) w
      = (Ok (ge_output (VDict kvs) []), w))
  /\ (forall courses,
        IGETC.ge_document (VDict kvs) courses = Ok (ge_output (VDict kvs) courses))
  /\ (forall courses,
        (lookup "institutionName" kvs = None ->
         field "institutionName" (ge_output (VDict kvs) courses) = VNone)
        /\ (lookup "academicYear" kvs = None ->
            field "academicYear" (ge_output (VDict kvs) courses) = VNone)
        /\ (forall year,
              lookup "academicYear" kvs = Some (VDict year) ->
              lookup "code" year = None ->
              field "academicYear" (ge_output (VDict kvs) courses) = VNone)
        /\ (lookup "listType" kvs = None ->
            field "listType" (ge_output (VDict kvs) courses) = VNone)).
Proof.
  intros Hy. split; [| split].
  - intros w Hl.
    unfold IGETC.transform, IGETC.courses_of, mbind, lift, get_default.
    destruct Hl as [E | E]; rewrite E; cbn; now rewrite (ge_document_total _ _ Hy).
  - intros courses. now apply ge_document_total.
  - intros courses. cbn. repeat split.
    + now intros ->.
    + now intros ->.
    + intros year -> E. cbn. now rewrite E.
    + now intros ->.
Qed.

(** C7, witness: a document that has only its list type. *)
Lemma ge_transform_missing_parts_witness :
  IGETC.transform fromisoformat_documented bare_document (world_at (midnight 2024 1 1))
  = (Ok (VDict [("institutionName", VNone); ("academicYear", VNone);
                ("listType", VStr "CSUGE"); ("courses", VList [])]),
     world_at (midnight 2024 1 1)).
Proof.
  destruct (ge_transform_missing_parts fromisoformat_documented
              [("listType", VStr "CSUGE")] I) as (empty & _).
  apply empty. left. reflexivity.
Defined.

(** The end-to-end scenario of the specification. *)
Example ge_transform_scenario :
  fst (IGETC.transform fromisoformat_documented
         (VDict [("courseInformationList", VList [engl_1a])])
         (world_at (midnight 2024 1 1)))
  = Ok (VDict [("institutionName", VNone); ("academicYear", VNone);
               ("listType", VNone);
               ("courses",
                VList [VDict [("course", VStr "ENGL 1A - Composition");
                              ("transferAreas", VList [VStr "C2"]);
                              ("approvedDate", VStr "2020-08-01");
                              ("approvedTerm", VNone);
                              ("removedDate", VNone);
                              ("removedTerm", VNone);
                              ("isCurrentlyApproved", VBool true)]])]).
Proof. reflexivity. Qed.

(** ** Runs and the clock *)

Lemma ret_clock_determined {A : Type} (a : A) : clock_determined (ret a).
Proof. intros w1 w2 H. now split. Qed.

Lemma raise_clock_determined {A : Type} (e : exn) : clock_determined (@raise A e).
Proof. intros w1 w2 H. now split. Qed.

Lemma lift_clock_determined {A : Type} (r : result A) : clock_determined (lift r).
Proof. intros w1 w2 H. now split. Qed.

Lemma utcnow_clock_determined : clock_determined utcnow.
Proof.
  intros w1 w2 H. unfold utcnow, same_clock in *. cbn. split.
  - specialize (H 0). rewrite !Nat.add_0_r in H. now rewrite H.
  - intros k. specialize (H (S k)). now rewrite !Nat.add_succ_r in H.
Qed.

Lemma mbind_clock_determined {A B : Type} (m : M A) (k : A -> M B) :
  clock_determined m ->
  (forall a, clock_determined (k a)) ->
  clock_determined (mbind m k).
Proof.
  intros Hm Hk w1 w2 H. unfold mbind.
  destruct (Hm w1 w2 H) as [Er Hw].
  destruct (m w1) as [r1 w1'], (m w2) as [r2 w2']. cbn in Er, Hw. subst r2.
  destruct r1 as [a | e]; [now apply Hk | now split].
Qed.

Lemma mapM_io_clock_determined {A B : Type} (f : A -> M B) (xs : list A) :
  (forall x, clock_determined (f x)) ->
  clock_determined (mapM_io f xs).
Proof.
  intros Hf. induction xs as [| x rest IH]; cbn [mapM_io].
  - apply ret_clock_determined.
  - apply mbind_clock_determined; [apply Hf | intros y].
    apply mbind_clock_determined; [exact IH | intros ys].
    apply ret_clock_determined.
Qed.

Create HintDb clock.

#[local] Hint Resolve ret_clock_determined raise_clock_determined
  lift_clock_determined utcnow_clock_determined : clock.

Ltac clock_step :=
  repeat (apply mbind_clock_determined; [| intro]); auto with clock.

Section Runs.

Variable fromisoformat : string -> iso_outcome.

Lemma approval_clock_determined (end_date_str : pyval) :
  clock_determined (IGETC.is_currently_approved fromisoformat end_date_str).
Proof.
  unfold IGETC.is_currently_approved.
  destruct (negb (truthy end_date_str)); [auto with clock |].
  destruct end_date_str; auto with clock.
  destruct (fromisoformat s); clock_step.
Qed.

Lemma course_entry_clock_determined (c : pyval) :
  clock_determined (IGETC.course_entry fromisoformat c).
Proof.
  unfold IGETC.course_entry. clock_step. apply approval_clock_determined.
Qed.

Lemma courses_of_clock_determined (data : pyval) :
  clock_determined (IGETC.courses_of fromisoformat data).
Proof.
  unfold IGETC.courses_of. clock_step.
  apply mapM_io_clock_determined, course_entry_clock_determined.
Qed.

(** C4 (amended): the rule reads the UTC clock itself, so a run is
    determined by the fetched document together with the readings of the
    clock: two runs of either transformer on the same document, in worlds
    whose clocks show the same readings, return the same thing, whatever
    else differs between the worlds. *)
Theorem transform_determined_by_clock (data : pyval) (list_type : string)
    (w1 w2 : World) :
  same_clock w1 w2 ->
  fst (IGETC.transform fromisoformat data w1)
  = fst (IGETC.transform fromisoformat data w2)
  /\ fst (Calgetc.transform fromisoformat list_type data w1)
     = fst (Calgetc.transform fromisoformat list_type data w2).
Proof.
  intros H. split.
  - apply (mbind_clock_determined (IGETC.courses_of fromisoformat data)
             (fun cs => lift (IGETC.ge_document data cs))); auto with clock.
    apply courses_of_clock_determined.
  - apply (mbind_clock_determined (Calgetc.courses_of fromisoformat data)
             (fun cs => lift (Calgetc.ge_document data list_type cs)));
      auto with clock.
    apply courses_of_clock_determined.
Qed.

End Runs.

(** C4, witness: the same document at the same instant, early and late in
    a run. *)
Lemma transform_determined_by_clock_witness :
  fst (IGETC.transform fromisoformat_documented ending_2025
         (world_at (midnight 2024 1 1)))
  = fst (IGETC.transform fromisoformat_documented ending_2025
           (later_world (midnight 2024 1 1))).
Proof.
  apply (transform_determined_by_clock fromisoformat_documented ending_2025 "CSUGE"
           (world_at (midnight 2024 1 1)) (later_world (midnight 2024 1 1))).
  intros k. reflexivity.
Defined.

(** C4, as stated, fails: the same document, transformed in 2024 and in
    2026, comes out with different [isCurrentlyApproved] flags; the worlds
    differ in the clock alone. *)
Lemma transform_depends_on_clock :
  fst (IGETC.transform fromisoformat_documented ending_2025
         (world_at (midnight 2024 1 1)))
  <> fst (IGETC.transform fromisoformat_documented ending_2025
            (world_at (midnight 2026 1 1)))
  /\ field "isCurrentlyApproved"
       (match fst (IGETC.course_entry fromisoformat_documented
                     (VDict [("endDate", VStr "2025-01-01")])
                     (world_at (midnight 2024 1 1))) with
        | Ok entry => entry
        | Raise _ => VNone
        end) = VBool true
  /\ field "isCurrentlyApproved"
       (match fst (IGETC.course_entry fromisoformat_documented
                     (VDict [("endDate", VStr "2025-01-01")])
                     (world_at (midnight 2026 1 1))) with
        | Ok entry => entry
        | Raise _ => VNone
        end) = VBool false.
Proof.
  split; [| split]; [| reflexivity | reflexivity].
  vm_compute. discriminate.
Qed.

(** ** Loops that raise at the first failure *)

Lemma mapM_app {A B : Type} (f : A -> result B) (xs ys : list A) :
  mapM f (xs ++ ys)%list
  = (a <- mapM f xs ;; b <- mapM f ys ;; Ok (a ++ b)%list).
Proof.
  induction xs as [| x xs IH]; cbn [mapM app bind].
  - now destruct (mapM f ys).
  - destruct (f x) as [y | e]; cbn [bind]; [| reflexivity].
    rewrite IH. destruct (mapM f xs) as [a | e]; cbn [bind]; [| reflexivity].
    now destruct (mapM f ys).
Qed.

Lemma mapM_Forall {A B : Type} (f : A -> result B) (P : B -> Prop) :
  (forall x y, f x = Ok y -> P y) ->
  forall xs ys, mapM f xs = Ok ys -> Forall P ys.
Proof.
  intros Hf. induction xs as [| x xs IH]; intros ys; cbn [mapM].
  - intros H. injection H as <-. constructor.
  - destruct (f x) as [y | e] eqn:Ey; [| discriminate]. cbn [bind].
    destruct (mapM f xs) as [rest | e]; [| discriminate]. cbn [bind].
    intros H. injection H as <-. constructor; [now apply (Hf x) | now apply IH].
Qed.

(** A loop runs over the elements of a list; over a string or a dict it
    runs over strings. *)
Lemma chars_strings (s : string) : Forall is_string (chars s).
Proof.
  induction s; cbn; constructor; [eexists; reflexivity | assumption].
Qed.

Lemma iter_elements (v : pyval) (xs : list pyval) :
  iter v = Ok xs ->
  xs = elements v
  \/ exists s rest, xs = VStr s :: rest /\ Forall is_string rest.
Proof.
  destruct v as [| | | | s | ys | kvs]; cbn; try discriminate;
    intros H; injection H as <-.
  - destruct s; [now left | right; cbn].
    do 2 eexists. split; [reflexivity | apply chars_strings].
  - now left.
  - destruct kvs; [now left | right; cbn].
    do 2 eexists. split; [reflexivity |].
    apply Forall_map, Forall_forall. intros; eexists; reflexivity.
Qed.

Lemma getitem_field (v : pyval) (k : string) (x : pyval) :
  getitem v k = Ok x -> has_field v k x /\ field k v = x.
Proof.
  destruct v as [| | | | | | kvs]; cbn; try discriminate.
  destruct (lookup k kvs); [| discriminate].
  intros H. injection H as <-. now split.
Qed.

Lemma has_field_getitem (v : pyval) (k : string) (x : pyval) :
  has_field v k x -> getitem v k = Ok x /\ get v k = Ok x.
Proof.
  destruct v as [| | | | | | kvs]; cbn; try contradiction.
  unfold get, get_default. now intros ->.
Qed.

(** ** The articulation transformer: destinations *)

Module Articulation.

Import MakeSimpleTransfers.

Lemma destination_is_string (to_course v : pyval) :
  destination to_course = Ok v -> is_string v.
Proof.
  unfold destination.
  destruct (getitem to_course "prefix"); [| discriminate]. cbn [bind].
  destruct (getitem to_course "courseNumber"); [| discriminate]. cbn [bind].
  destruct (getitem to_course "courseTitle"); [| discriminate]. cbn [bind].
  intros H. injection H as <-. eexists; reflexivity.
Qed.

Lemma destination_rendering (to_course prefix number title : pyval) :
  has_field to_course "prefix" prefix ->
  has_field to_course "courseNumber" number ->
  has_field to_course "courseTitle" title ->
  destination to_course
  = Ok (VStr (py_str prefix ++ " " ++ py_str number ++ ": " ++ py_str title)).
Proof.
  intros Hp Hn Ht. unfold destination.
  rewrite (proj1 (has_field_getitem _ _ _ Hp)); cbn [bind].
  rewrite (proj1 (has_field_getitem _ _ _ Hn)); cbn [bind].
  now rewrite (proj1 (has_field_getitem _ _ _ Ht)).
Qed.

Lemma mapM_destination_strings (s : string) (rest : list pyval) :
  mapM destination (VStr s :: rest) = Raise TypeError.
Proof. reflexivity. Qed.

Lemma from_item_nested (item : pyval) (here : list pyval) :
  from_item item = Ok here ->
  mapM destination (nested_courses item) = Ok here.
Proof.
  unfold from_item, nested_courses.
  destruct item as [| | | | s | xs | kvs]; cbn [contains bind]; try discriminate.
  - destruct (is_substring "items" s); [discriminate | trivial].
  - destruct (existsb (is_str "items") xs); [discriminate | trivial].
  - cbn [getitem field]. destruct (lookup "items" kvs) as [inner |]; [| trivial].
    cbn [bind]. destruct (iter inner) as [tos | e] eqn:Ei; [| discriminate].
    cbn [bind]. destruct (iter_elements _ _ Ei) as [-> | (s & rest & -> & _)];
      [trivial | now rewrite mapM_destination_strings].
Qed.

(** The strings are collected item by item, course by course, in order. *)
Lemma collect_in_order (items found : list pyval) :
  collect items = Ok found ->
  mapM destination (flat_map nested_courses items) = Ok found.
Proof.
  revert found. induction items as [| item rest IH]; intros found; cbn [collect flat_map].
  - trivial.
  - destruct (from_item item) as [here | e] eqn:Eh; [| discriminate]. cbn [bind].
    destruct (collect rest) as [later | e]; [| discriminate]. cbn [bind].
    intros H. injection H as <-.
    rewrite mapM_app, (from_item_nested _ _ Eh), (IH later eq_refl). reflexivity.
Qed.

Lemma collect_strings (items found : list pyval) :
  collect items = Ok found -> Forall is_string found.
Proof.
  intros H. apply collect_in_order in H.
  revert H. apply mapM_Forall. exact destination_is_string.
Qed.

(** Items that are strings contribute nothing. *)
Lemma collect_of_strings (items found : list pyval) :
  Forall is_string items -> collect items = Ok found -> found = [].
Proof.
  intros H. revert found.
  induction H as [| item rest (s & ->) _ IH]; intros found; cbn [collect].
  - intros E. now injection E.
  - unfold from_item. cbn [contains bind].
    destruct (is_substring "items" s); [discriminate |]. cbn [bind].
    destruct (collect rest) as [later | e]; [| discriminate]. cbn [bind].
    intros E. injection E as <-. now apply IH.
Qed.

Lemma collect_lacking (items : list pyval) :
  Forall lacks_nested items -> collect items = Ok [].
Proof.
  induction 1 as [| item rest (kvs & -> & E) _ IH]; [reflexivity |].
  cbn [collect]. unfold from_item. cbn [contains]. rewrite E. cbn [bind].
  now rewrite IH.
Qed.

(** ** The articulation transformer: [transfers_to] *)

Lemma filled_no_equivalent : filled no_equivalent.
Proof.
  exists [VStr "No equivalent course"]. repeat split; [discriminate |].
  repeat constructor. eexists; reflexivity.
Qed.

Lemma transfers_to_unmapped (kvs : list (string * pyval)) :
  match lookup "sendingArticulation" kvs with
  | None => True
  | Some v => truthy v = false
  end ->
  transfers_to (VDict kvs) = Ok no_equivalent.
Proof.
  unfold transfers_to, has_mapping, get, get_default.
  destruct (lookup "sendingArticulation" kvs) as [v |]; cbn [bind].
  - now intros ->.
  - trivial.
Qed.

Lemma transfers_to_no_items (kvs sa : list (string * pyval)) :
  lookup "sendingArticulation" kvs = Some (VDict sa) ->
  match lookup "items" sa with
  | None => True
  | Some v => truthy v = false
  end ->
  transfers_to (VDict kvs) = Ok no_equivalent.
Proof.
  intros Es Hi. unfold transfers_to, has_mapping, get, get_default, getitem.
  rewrite Es. cbn [bind].
  destruct (truthy (VDict sa)); [| reflexivity].
  destruct (lookup "items" sa) as [v |]; cbn [bind]; [now rewrite Hi | reflexivity].
Qed.

Lemma transfers_to_collected (kvs sa : list (string * pyval))
    (items found : list pyval) :
  lookup "sendingArticulation" kvs = Some (VDict sa) ->
  lookup "items" sa = Some (VList items) ->
  collect items = Ok found ->
  transfers_to (VDict kvs)
  = Ok (match found with
        | [] => no_equivalent
        | _ => VList found
        end).
Proof.
  intros Es Ei Ec. unfold transfers_to, has_mapping, get, get_default, getitem.
  rewrite Es. cbn [bind].
  destruct sa as [| kv sa]; [discriminate |]. cbn [truthy].
  rewrite Ei. cbn [bind].
  destruct items as [| item rest].
  - cbn in Ec. injection Ec as <-. reflexivity.
  - cbn [truthy iter bind]. rewrite Ec. reflexivity.
Qed.

Lemma transfers_to_filled (course destinations : pyval) :
  transfers_to course = Ok destinations -> filled destinations.
Proof.
  unfold transfers_to.
  destruct (has_mapping course) as [[|] | e]; cbn [bind]; try discriminate.
  - destruct (getitem course "sendingArticulation"); [| discriminate]. cbn [bind].
    destruct (getitem _ "items"); [| discriminate]. cbn [bind].
    destruct (iter _); [| discriminate]. cbn [bind].
    destruct (collect _) as [found | e] eqn:Ec; [| discriminate]. cbn [bind].
    intros H. injection H as <-.
    destruct found as [| x found]; [apply filled_no_equivalent |].
    exists (x :: found). repeat split; [discriminate | now apply collect_strings in Ec].
  - intros H. injection H as <-. apply filled_no_equivalent.
Qed.

(** ** The articulation transformer: one entry *)

Lemma transfer_entry_fields (course entry : pyval) :
  transfer_entry course = Ok entry ->
  exists info prefix number title department destinations,
    has_field course "course" info
    /\ has_field info "prefix" prefix
    /\ has_field info "courseNumber" number
    /\ has_field info "courseTitle" title
    /\ has_field info "department" department
    /\ transfers_to course = Ok destinations
    /\ entry = VDict [("from_course", VStr (py_str prefix ++ " " ++ py_str number));
                      ("course_title", title);
                      ("units", match info with
                                | VDict kvs =>
                                    match lookup "minUnits" kvs with
                                    | Some units => units
                                    | None => VStr "N/A"
                                    end
                                | _ => VNone
                                end);
                      ("department", department);
                      ("transfers_to", destinations)].
Proof.
  unfold transfer_entry.
  destruct (getitem course "course") as [info | e] eqn:E0; [| discriminate].
  cbn [bind].
  destruct (getitem info "prefix") as [prefix | e] eqn:E1; [| discriminate].
  cbn [bind].
  destruct (getitem info "courseNumber") as [number | e] eqn:E2; [| discriminate].
  cbn [bind].
  destruct (getitem info "courseTitle") as [title | e] eqn:E3; [| discriminate].
  cbn [bind].
  destruct (get_default info "minUnits" (VStr "N/A")) as [units | e] eqn:E4;
    [| discriminate].
  cbn [bind].
  destruct (getitem info "department") as [department | e] eqn:E5; [| discriminate].
  cbn [bind].
  destruct (transfers_to course) as [destinations | e]; [| discriminate].
  cbn [bind]. intros H. injection H as <-.
  exists info, prefix, number, title, department, destinations.
  repeat split; try (now apply getitem_field).
  destruct info as [| | | | | | kvs]; try discriminate.
  unfold get_default in E4.
  destruct (lookup "minUnits" kvs); injection E4 as <-; reflexivity.
Qed.

Lemma dept_transfers_Forall (P : pyval -> Prop) :
  (forall course entry, transfer_entry course = Ok entry -> P entry) ->
  forall courses out, dept_transfers courses = Ok out -> Forall P out.
Proof.
  intros HP. induction courses as [| course rest IH]; intros out; cbn [dept_transfers].
  - intros H. injection H as <-. constructor.
  - destruct (getitem course "type") as [ty | e]; [| discriminate]. cbn [bind].
    destruct (is_str "Course" ty); [| apply IH].
    destruct (transfer_entry course) as [entry | e] eqn:Ee; [| discriminate].
    cbn [bind].
    destruct (dept_transfers rest) as [entries | e]; [| discriminate].
    cbn [bind]. intros H. injection H as <-.
    constructor; [now apply (HP course) | now apply IH].
Qed.

Lemma extract_transfers_Forall (P : pyval -> Prop) :
  (forall course entry, transfer_entry course = Ok entry -> P entry) ->
  forall depts out, extract_transfers depts = Ok out -> Forall P out.
Proof.
  intros HP. induction depts as [| dept rest IH]; intros out; cbn [extract_transfers].
  - intros H. injection H as <-. constructor.
  - destruct (getitem dept "articulations"); [| discriminate]. cbn [bind].
    destruct (iter _); [| discriminate]. cbn [bind].
    destruct (dept_transfers _) as [here | e] eqn:Eh; [| discriminate].
    cbn [bind].
    destruct (extract_transfers rest) as [later | e]; [| discriminate].
    cbn [bind]. intros H. injection H as <-.
    apply Forall_app. split; [now apply (dept_transfers_Forall P HP) in Eh | now apply IH].
Qed.

(** ** The articulation transformer: which entries are emitted *)

Lemma dept_transfers_skip (course ty : pyval) (rest : list pyval) :
  has_field course "type" ty -> is_str "Course" ty = false ->
  dept_transfers (course :: rest) = dept_transfers rest.
Proof.
  intros Ht Hn. cbn [dept_transfers].
  rewrite (proj1 (has_field_getitem _ _ _ Ht)). cbn [bind]. now rewrite Hn.
Qed.

Lemma dept_transfers_emit (course : pyval) (rest : list pyval) :
  has_field course "type" (VStr "Course") ->
  dept_transfers (course :: rest)
  = (entry <- transfer_entry course ;;
     entries <- dept_transfers rest ;;
     Ok (entry :: entries)).
Proof.
  intros Ht. cbn [dept_transfers].
  now rewrite (proj1 (has_field_getitem _ _ _ Ht)).
Qed.

Lemma dept_transfers_filter (courses out : list pyval) :
  dept_transfers courses = Ok out ->
  mapM transfer_entry (filter is_course courses) = Ok out.
Proof.
  revert out. induction courses as [| course rest IH]; intros out;
    cbn [dept_transfers filter].
  - trivial.
  - destruct (getitem course "type") as [ty | e] eqn:Et; [| discriminate].
    cbn [bind]. apply getitem_field in Et. destruct Et as [_ Et].
    unfold is_course at 1. rewrite Et.
    destruct (is_str "Course" ty); [| apply IH].
    cbn [mapM].
    destruct (transfer_entry course) as [entry | e]; [| discriminate].
    cbn [bind].
    destruct (dept_transfers rest) as [entries | e]; [| discriminate].
    cbn [bind]. intros H. injection H as <-.
    now rewrite (IH entries eq_refl).
Qed.

Lemma dept_transfers_strings (s : string) (rest : list pyval) :
  dept_transfers (VStr s :: rest) = Raise TypeError.
Proof. reflexivity. Qed.

Lemma extract_transfers_filter (depts out : list pyval) :
  extract_transfers depts = Ok out ->
  mapM transfer_entry (filter is_course (flat_map dept_entries depts)) = Ok out.
Proof.
  revert out. induction depts as [| dept rest IH]; intros out;
    cbn [extract_transfers flat_map].
  - trivial.
  - destruct (getitem dept "articulations") as [listed | e] eqn:El; [| discriminate].
    cbn [bind]. apply getitem_field in El. destruct El as [_ El].
    destruct (iter listed) as [courses | e] eqn:Ei; [| discriminate].
    cbn [bind].
    destruct (dept_transfers courses) as [here | e] eqn:Eh; [| discriminate].
    cbn [bind].
    destruct (extract_transfers rest) as [later | e]; [| discriminate].
    cbn [bind]. intros H. injection H as <-.
    rewrite filter_app, mapM_app, (IH later eq_refl).
    unfold dept_entries at 1. rewrite El.
    destruct (iter_elements _ _ Ei) as [-> | (s & tail & -> & _)].
    + now rewrite (dept_transfers_filter _ _ Eh).
    + now rewrite dept_transfers_strings in Eh.
Qed.

End Articulation.

(** C2 (amended): the transformer emits, in order, one entry for each
    articulation entry whose [type] is the string [Course] and none for the
    others; an entry whose [type] is anything else is passed without
    raising.  [transfers_to] is the sentinel
    when [sendingArticulation] is absent or falsy, when its [items] is absent
    or empty, when every item lacks a nested list, and more generally
    whenever nothing was collected, also from nested lists that are there
    and empty; otherwise it is the collected strings, one
    [prefix courseNumber: courseTitle] per nested course, in order. *)
Theorem articulation_transfers :
  (forall depts out,
      MakeSimpleTransfers.extract_transfers depts = Ok out ->
      mapM MakeSimpleTransfers.transfer_entry
        (filter is_course (flat_map dept_entries depts)) = Ok out)
  /\ (forall course ty rest,
        has_field course "type" ty -> is_str "Course" ty = false ->
        MakeSimpleTransfers.dept_transfers (course :: rest)
        = MakeSimpleTransfers.dept_transfers rest)
  /\ (forall course entry,
        MakeSimpleTransfers.transfer_entry course = Ok entry ->
        exists destinations,
          MakeSimpleTransfers.transfers_to course = Ok destinations
          /\ has_field entry "transfers_to" destinations)
  /\ (forall kvs,
        lookup "sendingArticulation" kvs = None ->
        MakeSimpleTransfers.transfers_to (VDict kvs)
        = Ok MakeSimpleTransfers.no_equivalent)
  /\ (forall kvs sa,
        lookup "sendingArticulation" kvs = Some (VDict sa) ->
        lookup "items" sa = None \/ lookup "items" sa = Some (VList []) ->
        MakeSimpleTransfers.transfers_to (VDict kvs)
        = Ok MakeSimpleTransfers.no_equivalent)
  /\ (forall kvs sa items,
        lookup "sendingArticulation" kvs = Some (VDict sa) ->
        lookup "items" sa = Some (VList items) ->
        Forall lacks_nested items ->
        MakeSimpleTransfers.transfers_to (VDict kvs)
        = Ok MakeSimpleTransfers.no_equivalent)
  /\ (forall kvs sa items found,
        lookup "sendingArticulation" kvs = Some (VDict sa) ->
        lookup "items" sa = Some (VList items) ->
        MakeSimpleTransfers.collect items = Ok found ->
        mapM MakeSimpleTransfers.destination (flat_map nested_courses items)
        = Ok found
        /\ MakeSimpleTransfers.transfers_to (VDict kvs)
           = Ok (match found with
                 | [] => MakeSimpleTransfers.no_equivalent
                 | _ => VList found
                 end))
  /\ (forall to_course prefix number title,
        has_field to_course "prefix" prefix ->
        has_field to_course "courseNumber" number ->
        has_field to_course "courseTitle" title ->
        MakeSimpleTransfers.destination to_course
        = Ok (VStr (py_str prefix ++ " " ++ py_str number ++ ": " ++ py_str title))).
Proof.
  split; [exact Articulation.extract_transfers_filter |].
  split; [exact Articulation.dept_transfers_skip |].
  split.
  { intros course entry H.
    destruct (Articulation.transfer_entry_fields _ _ H)
      as (info & p & n & t & d & dest & _ & _ & _ & _ & _ & Ed & ->).
    exists dest. split; [exact Ed | reflexivity]. }
  split.
  { intros kvs E. apply Articulation.transfers_to_unmapped. now rewrite E. }
  split.
  { intros kvs sa Es [E | E];
      apply (Articulation.transfers_to_no_items kvs sa Es); now rewrite E. }
  split.
  { intros kvs sa items Es Ei Hl.
    now rewrite (Articulation.transfers_to_collected kvs sa items [] Es Ei
                   (Articulation.collect_lacking _ Hl)). }
  split.
  { intros kvs sa items found Es Ei Ec. split.
    - now apply Articulation.collect_in_order.
    - now apply (Articulation.transfers_to_collected kvs sa items). }
  exact Articulation.destination_rendering.
Qed.

(** C2, witness: a department with a mapped course, a placeholder and an
    unmapped course. *)
Lemma articulation_transfers_witness :
  mapM MakeSimpleTransfers.transfer_entry [mapped_to_cs_101; unmapped]
  = Ok [VDict [("from_course", VStr "MATH 1A");
               ("course_title", VStr "Calculus I");
               ("units", VStr "N/A");
               ("department", VStr "Mathematics");
               ("transfers_to", VList [VStr "CS 101: Intro"])];
        VDict [("from_course", VStr "MATH 1A");
               ("course_title", VStr "Calculus I");
               ("units", VStr "N/A");
               ("department", VStr "Mathematics");
               ("transfers_to", VList [VStr "No equivalent course"])]].
Proof.
  destruct articulation_transfers as (emitted & _).
  apply (emitted sample_departments). reflexivity.
Defined.

(** C2, as stated, fails: this entry has a [sendingArticulation], its
    [items] is not empty and its one item has a nested list, so none of the
    three conditions of the sentinel holds; nothing is collected, yet
    [transfers_to] is the sentinel and not the empty sequence. *)
Lemma transfers_to_empty_nested_list :
  has_field empty_nested "sendingArticulation"
    (VDict [("items", VList [VDict [("items", VList [])]])])
  /\ ~ lacks_nested (VDict [("items", VList [])])
  /\ MakeSimpleTransfers.collect [VDict [("items", VList [])]] = Ok []
  /\ MakeSimpleTransfers.transfers_to empty_nested
     = Ok (VList [VStr "No equivalent course"])
  /\ MakeSimpleTransfers.transfers_to empty_nested <> Ok (VList []).
Proof.
  repeat split; try discriminate.
  intros (kvs & E & N). injection E as <-. discriminate.
Qed.

(** C6 (amended): an emitted entry holds [prefix courseNumber] under
    [from_course]; under [units] it holds the string [N/A] when the source
    course has no [minUnits] key, and otherwise the value of [minUnits] as
    it is, a zero or a null included. *)
Theorem entry_from_course_and_units (course entry : pyval) :
  MakeSimpleTransfers.transfer_entry course = Ok entry ->
  exists info prefix number,
    has_field course "course" (VDict info)
    /\ lookup "prefix" info = Some prefix
    /\ lookup "courseNumber" info = Some number
    /\ has_field entry "from_course" (VStr (py_str prefix ++ " " ++ py_str number))
    /\ (lookup "minUnits" info = None -> has_field entry "units" (VStr "N/A"))
    /\ (forall units,
          lookup "minUnits" info = Some units -> has_field entry "units" units).
Proof.
  intros H.
  destruct (Articulation.transfer_entry_fields _ _ H)
    as (info & p & n & t & d & dest & Hi & Hp & Hn & _ & _ & _ & ->).
  destruct info as [| | | | | | kvs]; try contradiction.
  exists kvs, p, n. cbn in Hp, Hn. repeat split; trivial.
  - intros E. cbn. now rewrite E.
  - intros units E. cbn. now rewrite E.
Qed.

(** C6, witness: a course worth zero units keeps its zero. *)
Lemma entry_from_course_and_units_witness :
  exists info prefix number,
    has_field (with_units (VInt 0)) "course" (VDict info)
    /\ lookup "prefix" info = Some prefix
    /\ lookup "courseNumber" info = Some number
    /\ has_field
         (VDict [("from_course", VStr "BIOL 5"); ("course_title", VStr "Anatomy");
                 ("units", VInt 0); ("department", VStr "Biology");
                 ("transfers_to", VList [VStr "No equivalent course"])])
         "from_course" (VStr (py_str prefix ++ " " ++ py_str number))
    /\ (lookup "minUnits" info = None ->
        has_field
          (VDict [("from_course", VStr "BIOL 5"); ("course_title", VStr "Anatomy");
                  ("units", VInt 0); ("department", VStr "Biology");
                  ("transfers_to", VList [VStr "No equivalent course"])])
          "units" (VStr "N/A"))
    /\ (forall units,
          lookup "minUnits" info = Some units ->
          has_field
            (VDict [("from_course", VStr "BIOL 5"); ("course_title", VStr "Anatomy");
                    ("units", VInt 0); ("department", VStr "Biology");
                    ("transfers_to", VList [VStr "No equivalent course"])])
            "units" units).
Proof.
  apply (entry_from_course_and_units (with_units (VInt 0))). reflexivity.
Defined.

(** C6, as stated, fails: this course gives its unit count as null, so the
    source provides no unit count, yet [units] is that null and not the
    string [N/A]. *)
Lemma units_of_a_null_count :
  has_field (with_units VNone) "course"
    (VDict [("prefix", VStr "BIOL"); ("courseNumber", VInt 5);
            ("courseTitle", VStr "Anatomy"); ("minUnits", VNone);
            ("department", VStr "Biology")])
  /\ MakeSimpleTransfers.transfer_entry (with_units VNone)
     = Ok (VDict [("from_course", VStr "BIOL 5"); ("course_title", VStr "Anatomy");
                  ("units", VNone); ("department", VStr "Biology");
                  ("transfers_to", VList [VStr "No equivalent course"])])
  /\ VNone <> VStr "N/A".
Proof. repeat split. discriminate. Qed.

(** The units of three sources: none, a zero, a null. *)
Example units_examples :
  let units v :=
    match MakeSimpleTransfers.transfer_entry v with
    | Ok entry => field "units" entry
    | Raise _ => VNone
    end in
  units unmapped = VStr "N/A"
  /\ units (with_units (VInt 0)) = VInt 0
  /\ units (with_units (VFloat "3.0")) = VFloat "3.0"
  /\ units (with_units VNone) = VNone.
Proof. repeat split. Qed.

(** C10: every emitted entry has a [transfers_to], and it is a non-empty
    sequence of strings: the sentinel alone, or the destination strings
    collected from the items, of which there is then at least one. *)
Theorem transfers_to_never_empty :
  (forall course entry,
      MakeSimpleTransfers.transfer_entry course = Ok entry ->
      exists xs,
        has_field entry "transfers_to" (VList xs)
        /\ xs <> []
        /\ Forall is_string xs
        /\ (VList xs = MakeSimpleTransfers.no_equivalent
            \/ exists sa items,
                 has_field course "sendingArticulation" sa
                 /\ has_field sa "items" (VList items)
                 /\ MakeSimpleTransfers.collect items = Ok xs))
  /\ (forall depts out,
        MakeSimpleTransfers.extract_transfers depts = Ok out ->
        Forall (fun entry =>
                  exists xs, has_field entry "transfers_to" (VList xs) /\ xs <> [])
               out).
Proof.
  assert (one : forall course entry,
             MakeSimpleTransfers.transfer_entry course = Ok entry ->
             exists xs,
               has_field entry "transfers_to" (VList xs)
               /\ xs <> []
               /\ Forall is_string xs
               /\ (VList xs = MakeSimpleTransfers.no_equivalent
                   \/ exists sa items,
                        has_field course "sendingArticulation" sa
                        /\ has_field sa "items" (VList items)
                        /\ MakeSimpleTransfers.collect items = Ok xs)).
  { intros course entry H.
    destruct (Articulation.transfer_entry_fields _ _ H)
      as (info & p & n & t & d & dest & _ & _ & _ & _ & _ & Ed & ->).
    destruct (Articulation.transfers_to_filled _ _ Ed) as (xs & -> & Hne & Hs).
    exists xs. repeat split; trivial.
    revert Ed. unfold MakeSimpleTransfers.transfers_to.
    destruct (MakeSimpleTransfers.has_mapping course) as [[|] | e];
      cbn [bind]; try discriminate.
    - destruct (getitem course "sendingArticulation") as [sa | e] eqn:Es;
        [| discriminate].
      cbn [bind].
      destruct (getitem sa "items") as [listed | e] eqn:Ei; [| discriminate].
      cbn [bind].
      destruct (iter listed) as [items | e] eqn:Et; [| discriminate].
      cbn [bind].
      destruct (MakeSimpleTransfers.collect items) as [found | e] eqn:Ec;
        [| discriminate].
      cbn [bind]. intros E. injection E as E.
      destruct found as [| x found]; [now left |].
      injection E as <-. right.
      destruct (iter_elements _ _ Et) as [-> | (s & rest & -> & Hr)].
      + destruct listed as [| | | | | ys |];
          try (cbn in Ec; injection Ec as Ec; discriminate).
        exists sa, ys. repeat split; trivial; now apply getitem_field.
      + apply Articulation.collect_of_strings in Ec; [discriminate |].
        constructor; [eexists; reflexivity | exact Hr].
    - intros E. left. congruence. }
  split; [exact one |].
  apply Articulation.extract_transfers_Forall.
  intros course entry H. destruct (one _ _ H) as (xs & Hf & Hne & _).
  now exists xs.
Qed.

(** C10, witness: the entry whose nested list is there and empty. *)
Lemma transfers_to_never_empty_witness :
  exists xs,
    has_field
      (VDict [("from_course", VStr "MATH 1A"); ("course_title", VStr "Calculus I");
              ("units", VStr "N/A"); ("department", VStr "Mathematics");
              ("transfers_to", VList [VStr "No equivalent course"])])
      "transfers_to" (VList xs)
    /\ xs <> [].
Proof.
  destruct transfers_to_never_empty as (one & _).
  destruct (one empty_nested _ eq_refl) as (xs & Hf & Hne & _).
  now exists xs.
Defined.

(** ** Printing *)

(** The strings of the model hold code points below 256, which every
    stream is taken to encode: [print] is [print_line] on them. *)
Lemma print_as_line (line : string) (w : World) :
  print line w = print_line (codes line) w.
Proof.
  unfold print, print_line.
  assert (E : forallb (encodable w) (codes line) = true).
  { induction line as [| c rest IH]; [reflexivity |].
    cbn [codes forallb]. rewrite IH. unfold encodable.
    destruct (N.ltb_spec (N_of_ascii c) 256) as [_ | H]; [reflexivity |].
    pose proof (N_ascii_bounded c). lia. }
  now rewrite E.
Qed.

(** ** The articulation script: a failed fetch *)

Lemma printed_twice (w : World) (a b : string) :
  printed (printed w [a]) [b] = printed w [a; b].
Proof. unfold printed. cbn. now rewrite <- app_assoc. Qed.

Lemma failed_fetch_returns_none (url : string) (w : World) (msg : string) :
  fetch_failure (http w url) = Some msg ->
  MakeSimpleTransfers.fetch_api_data url w
  = (Ok VNone, printed w ["Error fetching data: " ++ msg]).
Proof.
  unfold fetch_failure, MakeSimpleTransfers.fetch_api_data, catch_request,
    mbind, requests_get, raise_for_status.
  destruct (http w url) as [kind m | r].
  - intros E. injection E as ->. reflexivity.
  - intros ->. reflexivity.
Qed.

(** C8: when [requests.get] raises (a connection error, a timeout) or
    [raise_for_status] raises on the response, the fetcher prints the error
    and returns [None] without raising; the entry point then prints its
    failure message and returns normally, and no file has been written. *)
Theorem failed_fetch_exits_cleanly (json_loads : string -> result pyval)
    (script_dir from_code to_code : string) (w : World) (msg : string) :
  fetch_failure (http w (MakeSimpleTransfers.api_url from_code to_code)) = Some msg ->
  MakeSimpleTransfers.fetch_api_data
    (MakeSimpleTransfers.api_url from_code to_code) w
  = (Ok VNone, printed w ["Error fetching data: " ++ msg])
  /\ MakeSimpleTransfers.get_transfer_data json_loads from_code to_code w
     = (Ok VNone, printed w ["Error fetching data: " ++ msg])
  /\ MakeSimpleTransfers.main json_loads script_dir from_code to_code w
     = (Ok tt, printed w ["Error fetching data: " ++ msg;
                          "Failed to fetch data from API"])
  /\ files (snd (MakeSimpleTransfers.main json_loads script_dir from_code to_code w))
     = files w.
Proof.
  intros H.
  pose proof (failed_fetch_returns_none _ _ _ H) as F.
  assert (G : MakeSimpleTransfers.get_transfer_data json_loads from_code to_code w
              = (Ok VNone, printed w ["Error fetching data: " ++ msg])).
  { unfold MakeSimpleTransfers.get_transfer_data, mbind. now rewrite F. }
  assert (R : MakeSimpleTransfers.main json_loads script_dir from_code to_code w
              = (Ok tt, printed w ["Error fetching data: " ++ msg;
                                   "Failed to fetch data from API"])).
  { unfold MakeSimpleTransfers.main, mbind. rewrite G. cbn [truthy negb].
    rewrite <- printed_twice. reflexivity. }
  repeat split; trivial. now rewrite R.
Qed.

(** C8, witness: the connection is refused. *)
Lemma failed_fetch_exits_cleanly_witness :
  MakeSimpleTransfers.main refuse_all "/opt/assist" "110" "79"
    (world_at (midnight 2024 1 1))
  = (Ok tt,
     printed (world_at (midnight 2024 1 1))
       ["Error fetching data: connection refused";
        "Failed to fetch data from API"]).
Proof.
  apply (failed_fetch_exits_cleanly refuse_all "/opt/assist" "110" "79"
           (world_at (midnight 2024 1 1)) "connection refused").
  reflexivity.
Defined.

(** The same on a 404: two lines printed, no file. *)
Example failed_fetch_not_found :
  let run := MakeSimpleTransfers.main refuse_all "/opt/assist" "110" "79"
               not_found_world in
  fst run = Ok tt
  /\ stdout (snd run)
     = map codes ["Error fetching data: 404 Client Error: Not Found";
                  "Failed to fetch data from API"]
  /\ files (snd run) = [].
Proof. repeat split. Qed.

(** ** The institution directory *)

Lemma institution_record_cases (inst : pyval) :
  well_named inst ->
  GetInstitutions.institution_record inst
  = match inst with
    | VDict kvs =>
        match lookup "id" kvs with
        | Some code => Ok (VDict [("schoolName", school_name inst); ("code", code)])
        | None => Raise (KeyError (VStr "id"))
        end
    | _ => Raise AttributeError
    end.
Proof.
  intros (kvs & -> & Hn).
  unfold GetInstitutions.institution_record, school_name, get, get_default,
    getitem, field.
  destruct (lookup "names" kvs) as [names |]; cbn [bind truthy elements].
  - destruct names as [| | | | | [| first rest] |];
      try (rewrite Hn; cbn [bind elements]; now destruct (lookup "id" kvs)).
    destruct Hn as (name & Hn). cbn [truthy getitem0 bind elements].
    destruct first as [| | | | | | fkvs]; try contradiction.
    cbn in Hn. rewrite Hn. cbn [bind]. now destruct (lookup "id" kvs).
  - now destruct (lookup "id" kvs).
Qed.

(** C9: for an institution whose [names], when it has any, starts with a
    named entry, the record holds that first name under [schoolName], or
    null when [names] is missing, null or empty, and the [id] under [code];
    without an [id] the record, and with it the whole comprehension, fails
    with [KeyError] on [id]. *)
Theorem institution_records :
  (forall inst code,
      well_named inst -> has_field inst "id" code ->
      GetInstitutions.institution_record inst
      = Ok (VDict [("schoolName", school_name inst); ("code", code)]))
  /\ (forall inst,
        well_named inst -> ~ has_id inst ->
        GetInstitutions.institution_record inst = Raise (KeyError (VStr "id")))
  /\ (forall kvs,
        lookup "names" kvs = None \/ lookup "names" kvs = Some VNone
        \/ lookup "names" kvs = Some (VList []) ->
        school_name (VDict kvs) = VNone)
  /\ (forall kvs first rest name,
        lookup "names" kvs = Some (VList (first :: rest)) ->
        has_field first "name" name ->
        school_name (VDict kvs) = name)
  /\ (forall insts,
        Forall well_named insts ->
        (Forall has_id insts ->
         GetInstitutions.parsed (VList insts) = Ok (map expected_record insts))
        /\ (Exists (fun inst => ~ has_id inst) insts ->
            GetInstitutions.parsed (VList insts) = Raise (KeyError (VStr "id")))).
Proof.
  assert (ok : forall inst code,
             well_named inst -> has_field inst "id" code ->
             GetInstitutions.institution_record inst
             = Ok (VDict [("schoolName", school_name inst); ("code", code)])).
  { intros inst code Hw Hc. rewrite (institution_record_cases _ Hw).
    destruct inst as [| | | | | | kvs]; try contradiction.
    cbn in Hc. now rewrite Hc. }
  assert (ko : forall inst,
             well_named inst -> ~ has_id inst ->
             GetInstitutions.institution_record inst = Raise (KeyError (VStr "id"))).
  { intros inst Hw Hc. rewrite (institution_record_cases _ Hw).
    destruct Hw as (kvs & -> & _).
    destruct (lookup "id" kvs) as [code |] eqn:E; [| reflexivity].
    exfalso. apply Hc. now exists code. }
  split; [exact ok |]. split; [exact ko |]. split; [| split].
  - intros kvs [E | [E | E]]; unfold school_name, field; now rewrite E.
  - intros kvs first rest name E Hf. unfold school_name. cbn [field]. rewrite E.
    cbn [elements]. destruct first as [| | | | | | fkvs]; try contradiction.
    cbn in Hf. cbn. now rewrite Hf.
  - intros insts Hw. unfold GetInstitutions.parsed. cbn [iter bind]. split.
    + intros Hi. induction Hw as [| inst rest Hwi _ IH]; [reflexivity |].
      inversion Hi as [| ? ? (code & Hc) Hrest]; subst.
      cbn [mapM map]. rewrite (ok _ _ Hwi Hc). cbn [bind].
      rewrite (IH Hrest). cbn [bind]. unfold expected_record.
      destruct inst as [| | | | | | kvs]; try contradiction.
      cbn in Hc. cbn [field]. now rewrite Hc.
    + intros He. induction Hw as [| inst rest Hwi _ IH];
        [inversion He |].
      cbn [mapM]. rewrite (institution_record_cases _ Hwi).
      destruct Hwi as (kvs & -> & _).
      destruct (lookup "id" kvs) as [code |] eqn:E; [| reflexivity].
      cbn [bind]. inversion He as [? ? Hn | ? ? Hr]; subst.
      * exfalso. apply Hn. now exists code.
      * now rewrite (IH Hr).
Qed.

(** C9, witness: a named school, an unnamed one, and one without an id. *)
Lemma institution_records_witness :
  GetInstitutions.parsed (VList [berkeley; unnamed_school])
  = Ok [VDict [("schoolName", VStr "University of California, Berkeley");
               ("code", VInt 79)];
        VDict [("schoolName", VNone); ("code", VInt 12)]]
  /\ GetInstitutions.parsed (VList [berkeley; without_id])
     = Raise (KeyError (VStr "id")).
Proof.
  destruct institution_records as (_ & _ & _ & _ & whole).
  split.
  - apply (whole [berkeley; unnamed_school]).
    + repeat constructor; eexists; (split; [reflexivity |]); cbn;
        try reflexivity; eexists; reflexivity.
    + repeat constructor; eexists; reflexivity.
  - apply (whole [berkeley; without_id]).
    + repeat constructor; eexists; (split; [reflexivity |]); cbn;
        eexists; reflexivity.
    + apply Exists_cons_tl, Exists_cons_hd. intros (code & H). discriminate.
Defined.

(** * Further properties *)

(** ** The GE-list transformer touches nothing but the clock *)

Ltac same_world := cbn; repeat split; lia.

Lemma ret_quiet {A : Type} (a : A) : quiet 0 (ret a).
Proof. intros w. same_world. Qed.

Lemma lift_quiet {A : Type} (r : result A) : quiet 0 (lift r).
Proof. intros w. same_world. Qed.

Lemma quiet_more {A : Type} (n n' : nat) (m : M A) :
  (n <= n')%nat -> quiet n m -> quiet n' m.
Proof.
  intros Hn Hm w. destruct (Hm w) as (? & ? & ? & ? & ? & ?).
  repeat split; trivial; lia.
Qed.

Lemma mbind_quiet {A B : Type} (n k : nat) (m : M A) (f : A -> M B) :
  quiet n m -> (forall a, quiet k (f a)) -> quiet (n + k) (mbind m f).
Proof.
  intros Hm Hf w. unfold mbind.
  destruct (Hm w) as (H1 & H2 & H3 & H4 & H5 & H6).
  destruct (m w) as [[a | e] w1]; cbn in H1, H2, H3, H4, H5, H6.
  - destruct (Hf a w1) as (G1 & G2 & G3 & G4 & G5 & G6).
    repeat split; try congruence; lia.
  - cbn. repeat split; trivial; lia.
Qed.

Lemma mapM_io_quiet {A B : Type} (f : A -> M B) (xs : list A) :
  (forall x, quiet 1 (f x)) -> quiet (List.length xs) (mapM_io f xs).
Proof.
  intros Hf. induction xs as [| x rest IH]; cbn [mapM_io List.length].
  - apply ret_quiet.
  - change (S (List.length rest)) with (1 + List.length rest)%nat.
    apply mbind_quiet; [apply Hf | intros y].
    apply (quiet_more (List.length rest + 0)); [lia |].
    apply mbind_quiet; [exact IH | intros ys; apply ret_quiet].
Qed.

Section Quiet.

Variable fromisoformat : string -> iso_outcome.

Lemma approval_quiet (end_date_str : pyval) :
  quiet 1 (IGETC.is_currently_approved fromisoformat end_date_str).
Proof.
  intros w. unfold IGETC.is_currently_approved.
  destruct (negb (truthy end_date_str)); [same_world |].
  destruct end_date_str; try same_world.
  destruct (fromisoformat s); same_world.
Qed.

Lemma course_entry_quiet (c : pyval) :
  quiet 1 (IGETC.course_entry fromisoformat c).
Proof.
  unfold IGETC.course_entry.
  repeat (apply (mbind_quiet 0); [apply lift_quiet | intro]).
  apply (quiet_more (1 + 0)); [lia |].
  apply mbind_quiet; [apply approval_quiet | intro; apply ret_quiet].
Qed.

(** A loop over something that is not a list meets a string first, and
    stops there. *)
Lemma course_entry_on_string (s : string) (w : World) :
  IGETC.course_entry fromisoformat (VStr s) w = (Raise AttributeError, w).
Proof. reflexivity. Qed.

Lemma courses_of_quiet (data : pyval) :
  quiet (List.length (raw_courses data)) (IGETC.courses_of fromisoformat data).
Proof.
  intros w. unfold IGETC.courses_of, mbind, lift, raw_courses.
  destruct data as [| | | | | | kvs]; try same_world.
  cbn [get_default field].
  destruct (lookup "courseInformationList" kvs) as [listed |]; [| same_world].
  destruct (iter (py_or listed (VList []))) as [cs | e] eqn:Ei; [| same_world].
  destruct (iter_elements _ _ Ei) as [-> | (s & rest & -> & _)].
  - assert (E : elements (py_or listed (VList [])) = elements listed).
    { unfold py_or. destruct (truthy listed) eqn:T; [reflexivity |].
      destruct listed as [| | | | | [| x xs] |]; try reflexivity. discriminate. }
    rewrite E. apply mapM_io_quiet. exact course_entry_quiet.
  - cbn [mapM_io]. unfold mbind. rewrite course_entry_on_string. same_world.
Qed.

Lemma transform_is_quiet (data : pyval) :
  quiet (List.length (raw_courses data)) (IGETC.transform fromisoformat data).
Proof.
  apply (quiet_more (List.length (raw_courses data) + 0)); [lia |].
  apply mbind_quiet; [apply courses_of_quiet | intro; apply lift_quiet].
Qed.

(** X1: whatever the document, the GE-list transformer prints nothing,
    writes no file and leaves the network and the clock as they are; all it
    does to the world is read the clock, at most once per raw course. *)
Theorem transform_quiet (data : pyval) (w : World) :
  let w' := snd (IGETC.transform fromisoformat data w) in
  stdout w' = stdout w
  /\ files w' = files w
  /\ http w' = http w
  /\ utcnow_at w' = utcnow_at w
  /\ (clock_reads w <= clock_reads w')%nat
  /\ (clock_reads w' <= clock_reads w + List.length (raw_courses data))%nat.
Proof.
  destruct (transform_is_quiet data w) as (H1 & H2 & H3 & H4 & H5 & H6).
  cbn zeta. repeat split; trivial.
Qed.

End Quiet.

(** ** The GE-list transformer: course by course *)

Lemma mapM_io_Forall2 {A B : Type} (f : A -> M B) (xs : list A) :
  forall ys w w',
    mapM_io f xs w = (Ok ys, w') ->
    Forall2 (fun x y => exists w1 w2, f x w1 = (Ok y, w2)) xs ys.
Proof.
  induction xs as [| x rest IH]; intros ys w w'; cbn [mapM_io]; unfold mbind, ret.
  - intros H. injection H as <- _. constructor.
  - destruct (f x w) as [[y | e] w1] eqn:Ex; [| discriminate].
    destruct (mapM_io f rest w1) as [[more | e] w2] eqn:Er; [| discriminate].
    intros H. injection H as <- _.
    constructor; [eauto | eapply IH; eassumption].
Qed.

Section CourseByCourse.

Variable fromisoformat : string -> iso_outcome.

(** The loop either stops before its first turn, the world untouched, or
    runs over the raw courses. *)
Lemma courses_of_cases (data : pyval) :
  (exists e, forall w, IGETC.courses_of fromisoformat data w = (Raise e, w))
  \/ (forall w,
        IGETC.courses_of fromisoformat data w
        = mapM_io (IGETC.course_entry fromisoformat) (raw_courses data) w).
Proof.
  unfold IGETC.courses_of, mbind, lift, raw_courses.
  destruct data as [| | | | | | kvs];
    try (left; exists AttributeError; reflexivity).
  cbn [get_default field].
  destruct (lookup "courseInformationList" kvs) as [listed |];
    [| right; reflexivity].
  assert (E : elements (py_or listed (VList [])) = elements listed).
  { unfold py_or. destruct (truthy listed) eqn:T; [reflexivity |].
    destruct listed as [| | | | | [| x xs] |]; try reflexivity. discriminate. }
  destruct (iter (py_or listed (VList []))) as [cs | e] eqn:Ei.
  - destruct (iter_elements _ _ Ei) as [-> | (s & rest & -> & _)].
    + right. now rewrite E.
    + left. exists AttributeError. reflexivity.
  - left. exists e. reflexivity.
Qed.

Lemma courses_of_run (data : pyval) (cs : list pyval) (w w' : World) :
  IGETC.courses_of fromisoformat data w = (Ok cs, w') ->
  mapM_io (IGETC.course_entry fromisoformat) (raw_courses data) w = (Ok cs, w').
Proof.
  destruct (courses_of_cases data) as [(e & H) | H]; rewrite H;
    [discriminate | trivial].
Qed.

(** X2: when the loop succeeds there is one normalized course per raw
    course, in the same order; the k-th one carries the name and the transfer
    areas of the k-th raw course, and its four date and term fields are the
    raw ones, copied as they are. *)
Theorem courses_in_order (data : pyval) (cs : list pyval) (w w' : World) :
  IGETC.courses_of fromisoformat data w = (Ok cs, w') ->
  List.length cs = List.length (raw_courses data)
  /\ Forall2
       (fun c entry =>
          exists name areas,
            IGETC.course_name c = Ok name
            /\ IGETC.transfer_areas c = Ok areas
            /\ field "course" entry = VStr name
            /\ field "transferAreas" entry = VList areas
            /\ field "approvedDate" entry = field "beginDate" c
            /\ field "approvedTerm" entry = field "beginTermCode" c
            /\ field "removedDate" entry = field "endDate" c
            /\ field "removedTerm" entry = field "endTermCode" c)
       (raw_courses data) cs.
Proof.
  intros H. apply courses_of_run, mapM_io_Forall2 in H.
  split; [symmetry; eapply Forall2_length; eassumption |].
  revert H. apply Forall2_impl.
  intros c entry (w1 & w2 & He).
  destruct (course_entry_fields _ _ _ _ _ He) as (name & areas & ok & En & Ea & -> & _).
  exists name, areas. repeat split; assumption.
Qed.

Lemma course_entry_never_ends (c : pyval) :
  never_ends c ->
  exists r,
    (forall w, IGETC.course_entry fromisoformat c w = (r, w))
    /\ (forall entry, r = Ok entry -> field "isCurrentlyApproved" entry = VBool true).
Proof.
  unfold never_ends, IGETC.course_entry, mbind, lift. intros Hn.
  destruct (IGETC.course_name c) as [name | e];
    [| exists (Raise e); split; [reflexivity | discriminate]].
  destruct (IGETC.transfer_areas c) as [areas | e];
    [| exists (Raise e); split; [reflexivity | discriminate]].
  destruct c as [| | | | | | kvs];
    try (exists (Raise AttributeError); split; [reflexivity | discriminate]).
  unfold get, get_default, IGETC.is_currently_approved. cbn [field] in Hn.
  destruct (lookup "endDate" kvs) as [v |]; [rewrite Hn |];
    destruct (lookup "beginDate" kvs), (lookup "beginTermCode" kvs),
      (lookup "endTermCode" kvs);
    (eexists; split; [reflexivity | intros entry E; injection E as <-; reflexivity]).
Qed.

Lemma loop_never_ends (cs : list pyval) :
  Forall never_ends cs ->
  exists r,
    (forall w, mapM_io (IGETC.course_entry fromisoformat) cs w = (r, w))
    /\ (forall entries,
          r = Ok entries ->
          Forall (fun entry => field "isCurrentlyApproved" entry = VBool true) entries).
Proof.
  induction 1 as [| c rest Hc _ (r & Hr & Fr)]; cbn [mapM_io]; unfold mbind, ret.
  - exists (Ok []). split; [reflexivity |]. intros entries E. injection E as <-.
    constructor.
  - destruct (course_entry_never_ends c Hc) as (rc & Hrc & Frc).
    destruct rc as [entry | e].
    + destruct r as [entries | e].
      * exists (Ok (entry :: entries)). split.
        -- intros w. now rewrite Hrc, Hr.
        -- intros es E. injection E as <-. constructor; auto.
      * exists (Raise e). split; [| discriminate].
        intros w. now rewrite Hrc, Hr.
    + exists (Raise e). split; [| discriminate].
      intros w. now rewrite Hrc.
Qed.

(** X3: a document none of whose raw courses has an end date is transformed
    without a look at the clock: the world comes back as it was, the result
    is the same in every world, and every course comes out approved. *)
Theorem transform_without_end_dates (data : pyval) :
  Forall never_ends (raw_courses data) ->
  exists r,
    (forall w, IGETC.transform fromisoformat data w = (r, w))
    /\ (forall out,
          r = Ok out ->
          Forall (fun entry => field "isCurrentlyApproved" entry = VBool true)
                 (elements (field "courses" out))).
Proof.
  intros Hn. unfold IGETC.transform, mbind, lift.
  destruct (courses_of_cases data) as [(e & H) | H].
  - exists (Raise e). split; [| discriminate]. intros w. now rewrite H.
  - destruct (loop_never_ends _ Hn) as (r & Hr & Fr).
    destruct r as [entries | e].
    + exists (IGETC.ge_document data entries). split.
      * intros w. now rewrite H, Hr.
      * intros out E. unfold IGETC.ge_document in E.
        destruct (get data "institutionName"); [| discriminate]. cbn [bind] in E.
        destruct (get data "academicYear"); [| discriminate]. cbn [bind] in E.
        destruct (get _ "code"); [| discriminate]. cbn [bind] in E.
        destruct (get data "listType"); [| discriminate]. cbn [bind] in E.
        injection E as <-. cbn. now apply Fr.
    + exists (Raise e). split; [| discriminate]. intros w. now rewrite H, Hr.
Qed.

(** X4: an end date that parses to exactly the reading of the clock is not
    in the future: the rule answers false on the boundary instant. *)
Theorem approval_on_the_boundary (s : string) (w : World) :
  s <> "" ->
  fromisoformat s = IsoNaive (utcnow_at w (clock_reads w)) ->
  fst (IGETC.is_currently_approved fromisoformat (VStr s) w) = Ok false.
Proof.
  intros Hs Hp. unfold IGETC.is_currently_approved. cbn [truthy].
  destruct (String.eqb_spec s ""); [contradiction |]. cbn [negb].
  rewrite Hp. unfold mbind, utcnow, ret. cbn [fst].
  now rewrite dt_gt_irrefl.
Qed.

Lemma rule_on_non_string (v : pyval) (w : World) :
  truthy v = true ->
  (forall s, v <> VStr s) ->
  IGETC.is_currently_approved fromisoformat v w = (Raise TypeError, w).
Proof.
  intros Ht Hs. unfold IGETC.is_currently_approved. rewrite Ht. cbn [negb].
  destruct v; try reflexivity. now destruct (Hs s).
Qed.

Lemma course_entry_on_non_string (c : pyval) (w : World) :
  truthy (field "endDate" c) = true ->
  (forall s, field "endDate" c <> VStr s) ->
  exists e, IGETC.course_entry fromisoformat c w = (Raise e, w).
Proof.
  intros Ht Hs. unfold IGETC.course_entry, mbind, lift.
  destruct (IGETC.course_name c) as [name | e]; [| now exists e].
  destruct (IGETC.transfer_areas c) as [areas | e]; [| now exists e].
  destruct c as [| | | | | | kvs]; try (now exists AttributeError).
  unfold get, get_default. cbn [field] in Ht, Hs.
  destruct (lookup "endDate" kvs) as [v |]; [| discriminate].
  destruct (lookup "beginDate" kvs), (lookup "beginTermCode" kvs),
    (lookup "endTermCode" kvs);
    rewrite (rule_on_non_string v w Ht Hs); now exists TypeError.
Qed.

Lemma loop_stops_at (c : pyval) (cs : list pyval) :
  In c cs ->
  (forall w, exists e, IGETC.course_entry fromisoformat c w = (Raise e, w)) ->
  forall w, exists e w',
    mapM_io (IGETC.course_entry fromisoformat) cs w = (Raise e, w').
Proof.
  intros Hin Hc. induction cs as [| x rest IH]; [contradiction |].
  intros w. cbn [mapM_io]. unfold mbind.
  destruct (IGETC.course_entry fromisoformat x w) as [[entry | e] w1] eqn:Ex;
    [| now exists e, w1].
  destruct Hin as [-> | Hin].
  - destruct (Hc w) as (e & He). congruence.
  - destruct (IH Hin w1) as (e & w' & He). rewrite He. now exists e, w'.
Qed.

(** X5: an end date that is truthy and not a string (a number, a list, an
    object, [True]) makes the rule raise [TypeError] before any reading of
    the clock, and one raw course with such an end date is enough for the
    whole transformation to raise: no document comes out. *)
Theorem non_string_end_date_aborts (data c : pyval) (w : World) :
  In c (raw_courses data) ->
  truthy (field "endDate" c) = true ->
  (forall s, field "endDate" c <> VStr s) ->
  IGETC.is_currently_approved fromisoformat (field "endDate" c) w
  = (Raise TypeError, w)
  /\ exists e, fst (IGETC.transform fromisoformat data w) = Raise e.
Proof.
  intros Hin Ht Hs. split; [now apply rule_on_non_string |].
  unfold IGETC.transform, mbind.
  destruct (courses_of_cases data) as [(e & H) | H]; rewrite H; [now exists e |].
  destruct (loop_stops_at c _ Hin
              (fun w0 => course_entry_on_non_string c w0 Ht Hs) w)
    as (e & w' & He).
  rewrite He. now exists e.
Qed.

(** X6: the transformer of calgetc.py returns the document of IGETC.py with
    [listTypeRequested], the list type that was asked for, added before
    [courses]; it fails when and as the one of IGETC.py does, and leaves the
    same world. *)
Theorem calgetc_echoes_request (list_type : string) (data : pyval) (w : World) :
  Calgetc.transform fromisoformat list_type data w
  = match IGETC.transform fromisoformat data w with
    | (Ok out, w') => (Ok (echo_request list_type out), w')
    | failed => failed
    end.
Proof.
  unfold Calgetc.transform, IGETC.transform, Calgetc.courses_of, mbind, lift.
  destruct (IGETC.courses_of fromisoformat data w) as [[cs | e] w1]; [| reflexivity].
  unfold Calgetc.ge_document, IGETC.ge_document.
  destruct (get data "institutionName"); [| reflexivity]. cbn [bind].
  destruct (get data "academicYear"); [| reflexivity]. cbn [bind].
  destruct (get _ "code"); [| reflexivity]. cbn [bind].
  destruct (get data "listType"); reflexivity.
Qed.

End CourseByCourse.

(** X3, witness: the course of the end-to-end scenario has a null end
    date. *)
Lemma transform_without_end_dates_witness :
  exists r,
    (forall w,
        IGETC.transform fromisoformat_documented
          (VDict [("courseInformationList", VList [engl_1a])]) w = (r, w))
    /\ (forall out,
          r = Ok out ->
          Forall (fun entry => field "isCurrentlyApproved" entry = VBool true)
                 (elements (field "courses" out))).
Proof.
  apply (transform_without_end_dates fromisoformat_documented
           (VDict [("courseInformationList", VList [engl_1a])])).
  repeat constructor.
Defined.

(** X2, witness: the document whose course ends in 2025. *)
Lemma courses_in_order_witness :
  List.length [VDict [("course", VStr "HIST 10 - World History");
                      ("transferAreas", VList []);
                      ("approvedDate", VNone); ("approvedTerm", VNone);
                      ("removedDate", VStr "2025-01-01"); ("removedTerm", VNone);
                      ("isCurrentlyApproved", VBool true)]]
  = List.length (raw_courses ending_2025).
Proof.
  apply (courses_in_order fromisoformat_documented ending_2025 _
           (world_at (midnight 2024 1 1))
           (snd (IGETC.courses_of fromisoformat_documented ending_2025
                   (world_at (midnight 2024 1 1))))).
  reflexivity.
Defined.

(** X4, witness: the end date 2024-01-01 seen at midnight on that day. *)
Lemma approval_on_the_boundary_witness :
  fst (IGETC.is_currently_approved fromisoformat_documented (VStr "2024-01-01")
         (world_at (midnight 2024 1 1)))
  = Ok false.
Proof.
  apply approval_on_the_boundary; [discriminate | reflexivity].
Defined.

(** X5, witness: an end date given as a number. *)
Lemma non_string_end_date_aborts_witness :
  exists e,
    fst (IGETC.transform fromisoformat_documented
           (VDict [("courseInformationList",
                    VList [engl_1a; VDict [("endDate", VInt 20250101)]])])
           (world_at (midnight 2024 1 1)))
    = Raise e.
Proof.
  apply (non_string_end_date_aborts fromisoformat_documented
           (VDict [("courseInformationList",
                    VList [engl_1a; VDict [("endDate", VInt 20250101)]])])
           (VDict [("endDate", VInt 20250101)])
           (world_at (midnight 2024 1 1))).
  - right. left. reflexivity.
  - reflexivity.
  - discriminate.
Defined.

(** ** The GE-list scripts: fetch, write, print *)

Lemma ge_fetch_cases (url : string) (w : World) :
  IGETC.fetch_api_data url w
  = match http w url with
    | GetRaises kind msg => (Raise (RequestException kind msg), w)
    | GetReturns r =>
        match status_error r with
        | Some msg => (Raise (RequestException HTTPError msg), w)
        | None => (json_body r, w)
        end
    end.
Proof.
  unfold IGETC.fetch_api_data, mbind, requests_get, raise_for_status,
    response_json, lift, raise, ret.
  destruct (http w url) as [kind msg | r]; [reflexivity |].
  now destruct (status_error r).
Qed.


Section GEScripts.

Variable fromisoformat : string -> iso_outcome.


(** X7: in the GE-list scripts a failed fetch is not caught: when
    [requests.get] or [raise_for_status] raises, the fetcher, the function
    around it and the entry point all raise that [RequestException], and
    the world is left as it was: nothing printed, nothing written. *)
Theorem failed_ge_fetch_propagates (script_dir : string)
    (institution_id academic_year_id : Z) (list_type out_file : string)
    (w : World) (msg : string) :
  fetch_failure (http w (ge_url institution_id academic_year_id list_type))
  = Some msg ->
  exists kind,
    IGETC.fetch_api_data (ge_url institution_id academic_year_id list_type) w
    = (Raise (RequestException kind msg), w)
    /\ IGETC.get_csu_ge_courses fromisoformat institution_id academic_year_id
         list_type w
       = (Raise (RequestException kind msg), w)
    /\ IGETC.main fromisoformat script_dir institution_id academic_year_id
         list_type out_file w
       = (Raise (RequestException kind msg), w)
    /\ Calgetc.get_transfer_courses fromisoformat institution_id academic_year_id
         list_type w
       = (Raise (RequestException kind msg), w)
    /\ Calgetc.main fromisoformat script_dir institution_id academic_year_id
         list_type out_file w
       = (Raise (RequestException kind msg), w).
Proof.
  intros H.
  assert (F : exists kind,
             IGETC.fetch_api_data (ge_url institution_id academic_year_id list_type) w
             = (Raise (RequestException kind msg), w)).
  { rewrite ge_fetch_cases. unfold fetch_failure in H.
    destruct (http w _) as [kind m | r].
    - injection H as ->. now exists kind.
    - rewrite H. now exists HTTPError. }
  destruct F as (kind & F). exists kind.
  split; [exact F |].
  unfold IGETC.main, Calgetc.main, IGETC.get_csu_ge_courses,
    Calgetc.get_transfer_courses, Calgetc.fetch_api_data, mbind.
  fold (ge_url institution_id academic_year_id list_type).
  rewrite F. repeat split.
Qed.



End GEScripts.

(** X7, witness: the connection is refused. *)
Lemma failed_ge_fetch_propagates_witness :
  exists kind,
    IGETC.fetch_api_data (ge_url 133 76 "CSUGE") (world_at (midnight 2024 1 1))
    = (Raise (RequestException kind "connection refused"),
       world_at (midnight 2024 1 1)).
Proof.
  destruct (failed_ge_fetch_propagates fromisoformat_documented "/opt/assist"
              133 76 "CSUGE" "csu_transfers.json" (world_at (midnight 2024 1 1))
              "connection refused" eq_refl) as (kind & F & _).
  now exists kind.
Defined.


(** Where no file can be opened: [OSError], and not a line printed. *)
Example ge_main_cannot_write :
  let run := IGETC.main fromisoformat_documented "/opt/assist" 133 76 "CSUGE"
               "csu_transfers.json" (read_only ending_2025 (midnight 2024 1 1)) in
  fst run = Raise OSError /\ stdout (snd run) = [] /\ files (snd run) = [].
Proof. repeat split. Qed.


(** ** The articulation script: the fetcher and the entry point *)

Lemma articulation_fetch_cases (url : string) (w : World) :
  MakeSimpleTransfers.fetch_api_data url w
  = match http w url with
    | GetRaises _ msg => (Ok VNone, and_printed w ("Error fetching data: " ++ msg))
    | GetReturns r =>
        match status_error r with
        | Some msg => (Ok VNone, and_printed w ("Error fetching data: " ++ msg))
        | None =>
            match json_body r with
            | Raise (RequestException _ msg) =>
                (Ok VNone, and_printed w ("Error fetching data: " ++ msg))
            | other => (other, w)
            end
        end
    end.
Proof.
  unfold MakeSimpleTransfers.fetch_api_data, catch_request, mbind, requests_get,
    raise_for_status, response_json, lift.
  destruct (http w url) as [kind msg | r]; [reflexivity |].
  destruct (status_error r); [reflexivity |]. cbn.
  destruct (json_body r) as [data | []]; reflexivity.
Qed.

(** X10: the articulation fetcher swallows a [RequestException] and nothing
    else.  A response that went through is returned as it is, with nothing
    printed; when [json()] raises a [RequestException] the fetcher prints it
    and returns [None]; when it raises anything else the exception goes
    through, nothing printed. *)
Theorem articulation_fetch_swallows_requests_only (url : string) (w : World)
    (r : Response) :
  http w url = GetReturns r ->
  status_error r = None ->
  (forall data,
      json_body r = Ok data ->
      MakeSimpleTransfers.fetch_api_data url w = (Ok data, w))
  /\ (forall kind msg,
        json_body r = Raise (RequestException kind msg) ->
        MakeSimpleTransfers.fetch_api_data url w
        = (Ok VNone, and_printed w ("Error fetching data: " ++ msg)))
  /\ (forall e,
        json_body r = Raise e ->
        (forall kind msg, e <> RequestException kind msg) ->
        MakeSimpleTransfers.fetch_api_data url w = (Raise e, w)).
Proof.
  intros Hr Hs. rewrite articulation_fetch_cases, Hr, Hs.
  repeat split.
  - now intros data ->.
  - now intros kind msg ->.
  - intros e -> Hn. destruct e; try reflexivity. now destruct (Hn kind msg).
Qed.

Section ArticulationScript.

Variable json_loads : string -> result pyval.

Lemma simple_data_shape (raw_data data : pyval) :
  MakeSimpleTransfers.simple_data json_loads raw_data = Ok data ->
  exists from_college to_college year_code transfers,
    data = VDict [("from_college", from_college); ("to_college", to_college);
                  ("academic_year", year_code); ("transfers", VList transfers)].
Proof.
  unfold MakeSimpleTransfers.simple_data.
  repeat match goal with
         | |- (_ <- ?r ;; _) = Ok _ -> _ =>
             destruct r; [cbn [bind] | discriminate]
         end.
  intros H. injection H as <-. eauto.
Qed.

(** X11: a response that went through but carries a falsy document (an
    empty object, an empty list, a zero, null) is taken for a failed fetch:
    the function returns [None] and the entry point prints its failure
    message, writes no file and returns normally. *)
Theorem falsy_document_counts_as_failure (script_dir from_code to_code : string)
    (raw_data : pyval) (w : World) :
  answers w (MakeSimpleTransfers.api_url from_code to_code) raw_data ->
  truthy raw_data = false ->
  MakeSimpleTransfers.get_transfer_data json_loads from_code to_code w
  = (Ok VNone, w)
  /\ MakeSimpleTransfers.main json_loads script_dir from_code to_code w
     = (Ok tt, and_printed w "Failed to fetch data from API").
Proof.
  intros (r & Hr & Hs & Hb) Hf.
  assert (G : MakeSimpleTransfers.get_transfer_data json_loads from_code to_code w
              = (Ok VNone, w)).
  { unfold MakeSimpleTransfers.get_transfer_data, mbind.
    rewrite articulation_fetch_cases, Hr, Hs, Hb, Hf. reflexivity. }
  split; [exact G |].
  unfold MakeSimpleTransfers.main, mbind. now rewrite G.
Qed.

(** The entry point once the fetch and the transformation went well:
    the file, the first line, the second line. *)
Lemma main_after_fetch (script_dir from_code to_code : string)
    (raw_data from_college to_college year_code : pyval) (transfers : list pyval)
    (w : World) :
  answers w (MakeSimpleTransfers.api_url from_code to_code) raw_data ->
  truthy raw_data = true ->
  MakeSimpleTransfers.simple_data json_loads raw_data
  = Ok (VDict [("from_college", from_college); ("to_college", to_college);
               ("academic_year", year_code); ("transfers", VList transfers)]) ->
  MakeSimpleTransfers.main json_loads script_dir from_code to_code w
  = let path := path_join script_dir "simple_transfers.json" in
    let data := VDict [("from_college", from_college); ("to_college", to_college);
                       ("academic_year", year_code);
                       ("transfers", VList transfers)] in
    let counted :=
      and_printed (and_dumped w path data)
        ("Created simple_transfers.json with "
         ++ str_of_int (Z.of_nat (List.length transfers)) ++ " courses") in
    let names := MakeSimpleTransfers.names_line from_college to_college in
    if unwritable w path then (Raise OSError, w)
    else if forallb (encodable w) names
         then (Ok tt, and_printed_line counted names)
         else (Raise UnicodeEncodeError, counted).
Proof.
  intros (r & Hr & Hs & Hb) Ht Hd.
  unfold MakeSimpleTransfers.main, MakeSimpleTransfers.get_transfer_data, mbind.
  rewrite articulation_fetch_cases, Hr, Hs, Hb, Ht. cbn [negb].
  unfold lift. rewrite Hd. cbn [truthy negb]. unfold dump_to. cbn zeta.
  destruct (unwritable w (path_join script_dir "simple_transfers.json"));
    reflexivity.
Qed.


(** X13: the only partial output of the articulation script: if the entry
    point raises, either it has printed nothing and written no file, or the
    exception is the [UnicodeEncodeError] of the last line, raised after the
    file was written and the number of transfers printed. *)
Theorem articulation_main_partial_output (script_dir from_code to_code : string)
    (w : World) (e : exn) :
  fst (MakeSimpleTransfers.main json_loads script_dir from_code to_code w)
  = Raise e ->
  snd (MakeSimpleTransfers.main json_loads script_dir from_code to_code w) = w
  \/ (e = UnicodeEncodeError
      /\ exists data transfers,
           has_field data "transfers" (VList transfers)
           /\ snd (MakeSimpleTransfers.main json_loads script_dir from_code
                     to_code w)
              = and_printed
                  (and_dumped w (path_join script_dir "simple_transfers.json") data)
                  ("Created simple_transfers.json with "
                   ++ str_of_int (Z.of_nat (List.length transfers))
                   ++ " courses")).
Proof.
  destruct (http w (MakeSimpleTransfers.api_url from_code to_code))
    as [kind msg | r] eqn:Hr;
    [unfold MakeSimpleTransfers.main, MakeSimpleTransfers.get_transfer_data, mbind;
     rewrite articulation_fetch_cases, Hr; discriminate |].
  destruct (status_error r) eqn:Hs;
    [unfold MakeSimpleTransfers.main, MakeSimpleTransfers.get_transfer_data, mbind;
     rewrite articulation_fetch_cases, Hr, Hs; discriminate |].
  destruct (json_body r) as [raw | e0] eqn:Hb.
  - destruct (truthy raw) eqn:Ht.
    + destruct (MakeSimpleTransfers.simple_data json_loads raw) as [data | e1] eqn:Hd.
      * destruct (simple_data_shape _ _ Hd) as (fc & tc & yc & ts & ->).
        rewrite (main_after_fetch script_dir from_code to_code raw fc tc yc ts w);
          trivial; [| now exists r].
        cbn zeta. destruct (unwritable w _); [now left |].
        destruct (forallb _ _); [discriminate |].
        cbn [fst snd]. intros E. injection E as <-. right.
        split; [reflexivity |].
        exists (VDict [("from_college", fc); ("to_college", tc);
                       ("academic_year", yc); ("transfers", VList ts)]), ts.
        split; reflexivity.
      * unfold MakeSimpleTransfers.main, MakeSimpleTransfers.get_transfer_data,
          mbind, lift.
        rewrite articulation_fetch_cases, Hr, Hs, Hb, Ht. cbn [negb].
        rewrite Hd. now left.
    + unfold MakeSimpleTransfers.main, MakeSimpleTransfers.get_transfer_data, mbind.
      rewrite articulation_fetch_cases, Hr, Hs, Hb, Ht. discriminate.
  - unfold MakeSimpleTransfers.main, MakeSimpleTransfers.get_transfer_data, mbind.
    rewrite articulation_fetch_cases, Hr, Hs, Hb.
    destruct e0; now left.
Qed.

(** X14: what the module's global holds after [store_data_in_file]: the
    value returned, when the call returns; in particular a failed fetch
    replaces whatever was stored by [None]; what it held before, when the
    call raises. *)
Theorem stored_sample_data (from_code to_code : string) (held : pyval) (w : World) :
  (forall data w',
      MakeSimpleTransfers.get_transfer_data json_loads from_code to_code w
      = (Ok data, w') ->
      MakeSimpleTransfers.store_data_in_file json_loads from_code to_code held w
      = ((Ok data, w'), data))
  /\ (forall msg,
        fetch_failure (http w (MakeSimpleTransfers.api_url from_code to_code))
        = Some msg ->
        snd (MakeSimpleTransfers.store_data_in_file json_loads from_code to_code
               held w) = VNone)
  /\ (forall e,
        fst (MakeSimpleTransfers.get_transfer_data json_loads from_code to_code w)
        = Raise e ->
        snd (MakeSimpleTransfers.store_data_in_file json_loads from_code to_code
               held w) = held).
Proof.
  unfold MakeSimpleTransfers.store_data_in_file. repeat split.
  - now intros data w' ->.
  - intros msg H.
    unfold MakeSimpleTransfers.get_transfer_data, mbind.
    rewrite articulation_fetch_cases. unfold fetch_failure in H.
    destruct (http w _) as [kind m | r]; [reflexivity |]. now rewrite H.
  - intros e.
    destruct (MakeSimpleTransfers.get_transfer_data json_loads from_code to_code w)
      as [[data | e'] w']; [discriminate | reflexivity].
Qed.

End ArticulationScript.

(** X10, witness: a served document comes back as it is. *)
Lemma articulation_fetch_swallows_requests_only_witness :
  MakeSimpleTransfers.fetch_api_data "https://assist.org/"
    (serving sample_agreement (midnight 2024 1 1))
  = (Ok sample_agreement, serving sample_agreement (midnight 2024 1 1)).
Proof.
  destruct (articulation_fetch_swallows_requests_only "https://assist.org/"
              (serving sample_agreement (midnight 2024 1 1))
              {| status_error := None; json_body := Ok sample_agreement |}
              eq_refl eq_refl) as (served & _).
  now apply served.
Defined.

(** X11, witness: the API answers with an empty object. *)
Lemma falsy_document_counts_as_failure_witness :
  MakeSimpleTransfers.main sample_loads "/opt/assist" "113" "79"
    (serving (VDict []) (midnight 2024 1 1))
  = (Ok tt,
     and_printed (serving (VDict []) (midnight 2024 1 1))
       "Failed to fetch data from API").
Proof.
  apply (falsy_document_counts_as_failure sample_loads "/opt/assist" "113" "79"
           (VDict []) (serving (VDict []) (midnight 2024 1 1))).
  - eexists. repeat split.
  - reflexivity.
Defined.


(** X13, witness: the sample agreement on a terminal without the arrow;
    the file is there, and one line. *)
Lemma articulation_main_partial_output_witness :
  snd (MakeSimpleTransfers.main sample_loads "/opt/assist" "113" "79"
         (latin_terminal sample_agreement (midnight 2024 1 1)))
  = latin_terminal sample_agreement (midnight 2024 1 1)
  \/ (UnicodeEncodeError = UnicodeEncodeError
      /\ exists data transfers,
           has_field data "transfers" (VList transfers)
           /\ snd (MakeSimpleTransfers.main sample_loads "/opt/assist" "113" "79"
                     (latin_terminal sample_agreement (midnight 2024 1 1)))
              = and_printed
                  (and_dumped (latin_terminal sample_agreement (midnight 2024 1 1))
                     (path_join "/opt/assist" "simple_transfers.json") data)
                  ("Created simple_transfers.json with "
                   ++ str_of_int (Z.of_nat (List.length transfers))
                   ++ " courses")).
Proof.
  apply (articulation_main_partial_output sample_loads "/opt/assist" "113" "79"
           (latin_terminal sample_agreement (midnight 2024 1 1))
           UnicodeEncodeError).
  reflexivity.
Defined.

(** X14, witness: a refused connection erases what was stored. *)
Lemma stored_sample_data_witness :
  snd (MakeSimpleTransfers.store_data_in_file sample_loads "113" "79"
         sample_agreement (world_at (midnight 2024 1 1)))
  = VNone.
Proof.
  destruct (stored_sample_data sample_loads "113" "79" sample_agreement
              (world_at (midnight 2024 1 1))) as (_ & erased & _).
  now apply (erased "connection refused").
Defined.

(** ** The articulation transformer: the agreement as a whole *)

Section Agreement.

Variable json_loads : string -> result pyval.

Lemma simple_data_decoded
    (raw_data receiving sending academic_year articulations : pyval) :
  decodes json_loads raw_data receiving sending academic_year articulations ->
  MakeSimpleTransfers.simple_data json_loads raw_data
  = (sending_names <- getitem sending "names" ;;
     sending_first <- getitem0 sending_names ;;
     from_college <- getitem sending_first "name" ;;
     receiving_names <- getitem receiving "names" ;;
     receiving_first <- getitem0 receiving_names ;;
     to_college <- getitem receiving_first "name" ;;
     year_code <- getitem academic_year "code" ;;
     depts <- iter articulations ;;
     transfers <- MakeSimpleTransfers.extract_transfers depts ;;
     Ok (VDict [("from_college", from_college);
                ("to_college", to_college);
                ("academic_year", year_code);
                ("transfers", VList transfers)])).
Proof.
  intros (res & r & s & y & a & H0 & H1 & L1 & H2 & L2 & H3 & L3 & H4 & L4).
  unfold MakeSimpleTransfers.simple_data.
  rewrite (proj1 (has_field_getitem _ _ _ H0)); cbn [bind].
  rewrite (proj1 (has_field_getitem _ _ _ H1)); cbn [bind MakeSimpleTransfers.loads].
  rewrite L1; cbn [bind].
  rewrite (proj1 (has_field_getitem _ _ _ H2)); cbn [bind MakeSimpleTransfers.loads].
  rewrite L2; cbn [bind].
  rewrite (proj1 (has_field_getitem _ _ _ H3)); cbn [bind MakeSimpleTransfers.loads].
  rewrite L3; cbn [bind].
  rewrite (proj1 (has_field_getitem _ _ _ H4)); cbn [bind MakeSimpleTransfers.loads].
  rewrite L4; cbn [bind]. reflexivity.
Qed.

Lemma first_name (institution name : pyval) :
  first_named institution name ->
  (names <- getitem institution "names" ;;
   first <- getitem0 names ;;
   getitem first "name") = Ok name.
Proof.
  intros (first & rest & Hn & Hf).
  rewrite (proj1 (has_field_getitem _ _ _ Hn)); cbn [bind getitem0].
  exact (proj1 (has_field_getitem _ _ _ Hf)).
Qed.

(** X15: an agreement whose four encoded parts decode, whose institutions
    have a first name and whose year has a code is normalized to the two
    first names, the year's code and the transfers extracted from the
    department groups. *)
Theorem agreement_normalized
    (raw_data receiving sending academic_year : pyval)
    (from_college to_college year_code : pyval) (depts transfers : list pyval) :
  decodes json_loads raw_data receiving sending academic_year (VList depts) ->
  first_named sending from_college ->
  first_named receiving to_college ->
  has_field academic_year "code" year_code ->
  MakeSimpleTransfers.extract_transfers depts = Ok transfers ->
  MakeSimpleTransfers.simple_data json_loads raw_data
  = Ok (VDict [("from_college", from_college);
               ("to_college", to_college);
               ("academic_year", year_code);
               ("transfers", VList transfers)]).
Proof.
  intros Hd Hs Hr Hy Ht. rewrite (simple_data_decoded _ _ _ _ _ Hd).
  destruct Hs as (sf & srest & Hsn & Hsf). destruct Hr as (rf & rrest & Hrn & Hrf).
  rewrite (proj1 (has_field_getitem _ _ _ Hsn)); cbn [bind getitem0].
  rewrite (proj1 (has_field_getitem _ _ _ Hsf)); cbn [bind].
  rewrite (proj1 (has_field_getitem _ _ _ Hrn)); cbn [bind getitem0].
  rewrite (proj1 (has_field_getitem _ _ _ Hrf)); cbn [bind].
  rewrite (proj1 (has_field_getitem _ _ _ Hy)); cbn [bind iter].
  now rewrite Ht.
Qed.

(** X16: there is no fallback for an institution without a name: an empty
    [names] list of the sending institution, or of the receiving one once
    the sending one is named, makes the transformation raise
    [IndexError]. *)
Theorem agreement_without_names
    (raw_data receiving sending academic_year articulations : pyval) :
  decodes json_loads raw_data receiving sending academic_year articulations ->
  (has_field sending "names" (VList []) ->
   MakeSimpleTransfers.simple_data json_loads raw_data = Raise IndexError)
  /\ (forall from_college,
        first_named sending from_college ->
        has_field receiving "names" (VList []) ->
        MakeSimpleTransfers.simple_data json_loads raw_data = Raise IndexError).
Proof.
  intros Hd. rewrite (simple_data_decoded _ _ _ _ _ Hd). split.
  - intros Hn. now rewrite (proj1 (has_field_getitem _ _ _ Hn)).
  - intros from_college (sf & srest & Hsn & Hsf) Hn.
    rewrite (proj1 (has_field_getitem _ _ _ Hsn)); cbn [bind getitem0].
    rewrite (proj1 (has_field_getitem _ _ _ Hsf)); cbn [bind].
    now rewrite (proj1 (has_field_getitem _ _ _ Hn)).
Qed.

End Agreement.

(** X15, witness: the sample agreement. *)
Lemma agreement_normalized_witness :
  exists transfers,
    MakeSimpleTransfers.simple_data sample_loads sample_agreement
    = Ok (VDict [("from_college", VStr "De Anza College");
                 ("to_college", VStr "UC Berkeley");
                 ("academic_year", VStr "2024-2025");
                 ("transfers", VList transfers)])
    /\ List.length transfers = 2%nat.
Proof.
  eexists. split.
  - apply (agreement_normalized sample_loads sample_agreement
             (VDict [("names", VList [VDict [("name", VStr "UC Berkeley")]])])
             (VDict [("names", VList [VDict [("name", VStr "De Anza College")]])])
             (VDict [("code", VStr "2024-2025")])
             (VStr "De Anza College") (VStr "UC Berkeley") (VStr "2024-2025")
             sample_departments).
    + do 5 eexists. repeat split.
    + do 2 eexists. split; reflexivity.
    + do 2 eexists. split; reflexivity.
    + reflexivity.
    + reflexivity.
  - reflexivity.
Defined.

(** X16, witness: the sending institution has an empty [names]. *)
Lemma agreement_without_names_witness :
  MakeSimpleTransfers.simple_data sample_loads unnamed_agreement = Raise IndexError.
Proof.
  destruct (agreement_without_names sample_loads unnamed_agreement
              (VDict [("names", VList [VDict [("name", VStr "UC Berkeley")]])])
              (VDict [("names", VList [])])
              (VDict [("code", VStr "2024-2025")])
              (VList sample_departments)) as (unnamed & _).
  - do 5 eexists. repeat split.
  - now apply unnamed.
Defined.

(** ** The articulation transformer: departments and entries *)

Module Departments.

Import MakeSimpleTransfers.

Lemma dept_transfers_app (xs ys : list pyval) :
  dept_transfers (xs ++ ys)%list
  = (a <- dept_transfers xs ;; b <- dept_transfers ys ;; Ok (a ++ b)%list).
Proof.
  induction xs as [| x xs IH]; cbn [dept_transfers app bind].
  - now destruct (dept_transfers ys).
  - destruct (getitem x "type") as [ty | e]; [| reflexivity]. cbn [bind].
    destruct (is_str "Course" ty); [| exact IH].
    destruct (transfer_entry x) as [entry | e]; [| reflexivity]. cbn [bind].
    rewrite IH. destruct (dept_transfers xs) as [a | e]; [| reflexivity].
    cbn [bind]. now destruct (dept_transfers ys).
Qed.

Lemma mapM_length {A B : Type} (f : A -> result B) (xs : list A) (ys : list B) :
  mapM f xs = Ok ys -> List.length ys = List.length xs.
Proof.
  revert ys. induction xs as [| x xs IH]; intros ys; cbn [mapM].
  - intros H. now injection H as <-.
  - destruct (f x); [| discriminate]. cbn [bind].
    destruct (mapM f xs) as [rest |]; [| discriminate]. cbn [bind].
    intros H. injection H as <-. cbn. now rewrite (IH rest).
Qed.

End Departments.

(** X17: department groups are processed one after the other and their
    transfers concatenated: extracting from two lists of groups put end to
    end gives the transfers of the first followed by those of the second,
    and raises what the first one to fail raises. *)
Theorem extraction_concatenates (groups more : list pyval) :
  MakeSimpleTransfers.extract_transfers (groups ++ more)%list
  = (a <- MakeSimpleTransfers.extract_transfers groups ;;
     b <- MakeSimpleTransfers.extract_transfers more ;;
     Ok (a ++ b)%list).
Proof.
  induction groups as [| dept rest IH];
    cbn [MakeSimpleTransfers.extract_transfers app bind].
  - now destruct (MakeSimpleTransfers.extract_transfers more).
  - destruct (getitem dept "articulations") as [listed | e]; [| reflexivity].
    cbn [bind].
    destruct (iter listed) as [courses | e]; [| reflexivity]. cbn [bind].
    destruct (MakeSimpleTransfers.dept_transfers courses) as [here | e];
      [| reflexivity].
    cbn [bind]. rewrite IH.
    destruct (MakeSimpleTransfers.extract_transfers rest) as [a | e];
      [| reflexivity].
    cbn [bind].
    destruct (MakeSimpleTransfers.extract_transfers more) as [b | e];
      [| reflexivity].
    cbn [bind]. now rewrite app_assoc.
Qed.

(** X18: when the extraction succeeds, there are exactly as many transfers
    as there are entries of type [Course] in the department groups. *)
Theorem transfers_counted (depts out : list pyval) :
  MakeSimpleTransfers.extract_transfers depts = Ok out ->
  List.length out = List.length (filter is_course (flat_map dept_entries depts)).
Proof.
  intros H. apply Articulation.extract_transfers_filter in H.
  now apply Departments.mapM_length in H.
Qed.

(** X18, witness: three entries, two of them courses. *)
Lemma transfers_counted_witness :
  List.length
    (match MakeSimpleTransfers.extract_transfers sample_departments with
     | Ok out => out
     | Raise _ => []
     end) = 2%nat.
Proof.
  apply (transfers_counted sample_departments). reflexivity.
Defined.

(** X19: an entry that is an object without a [type] stops the extraction
    with [KeyError] on [type], even after entries that went well; the
    entries already built are lost with it. *)
Theorem entry_without_type (before after : list pyval) (built : list pyval)
    (kvs : list (string * pyval)) :
  MakeSimpleTransfers.dept_transfers before = Ok built ->
  lookup "type" kvs = None ->
  MakeSimpleTransfers.dept_transfers (before ++ VDict kvs :: after)%list
  = Raise (KeyError (VStr "type")).
Proof.
  intros Hb Hn. rewrite Departments.dept_transfers_app, Hb. cbn [bind].
  cbn [MakeSimpleTransfers.dept_transfers getitem]. now rewrite Hn.
Qed.

(** X19, witness: a course, then an entry with no type. *)
Lemma entry_without_type_witness :
  MakeSimpleTransfers.dept_transfers [unmapped; VDict [("course", course_info_math)]]
  = Raise (KeyError (VStr "type")).
Proof.
  apply (entry_without_type [unmapped] [] _ [("course", course_info_math)]
           eq_refl eq_refl).
Defined.

(** X20: of the fields of a course only [minUnits] is optional.  When the
    course lacks [prefix], [courseNumber], [courseTitle] or [department], the
    entry is not built and [KeyError] names the first of these, in that
    order, that is missing; when it has all four, the entry is built as soon
    as its destinations are, with or without [minUnits]. *)
Theorem entry_required_keys (course : pyval) (info : list (string * pyval)) :
  has_field course "course" (VDict info) ->
  (forall k,
      first_missing info = Some k ->
      MakeSimpleTransfers.transfer_entry course = Raise (KeyError (VStr k)))
  /\ (first_missing info = None ->
      forall destinations,
        MakeSimpleTransfers.transfers_to course = Ok destinations ->
        exists entry, MakeSimpleTransfers.transfer_entry course = Ok entry).
Proof.
  intros Hc. unfold MakeSimpleTransfers.transfer_entry, first_missing, required_keys.
  rewrite (proj1 (has_field_getitem _ _ _ Hc)).
  cbn [bind getitem get_default find].
  destruct (lookup "prefix" info);
    [| split; [intros k E; now injection E as <- | discriminate]].
  cbn [bind].
  destruct (lookup "courseNumber" info);
    [| split; [intros k E; now injection E as <- | discriminate]].
  cbn [bind].
  destruct (lookup "courseTitle" info);
    [| split; [intros k E; now injection E as <- | discriminate]].
  cbn [bind].
  destruct (lookup "department" info).
  - split; [discriminate |]. intros _ destinations Hd.
    destruct (lookup "minUnits" info); cbn [bind]; rewrite Hd; eexists; reflexivity.
  - split; [| discriminate]. intros k E. injection E as <-.
    now destruct (lookup "minUnits" info).
Qed.

(** X20, witness: a course without a title and without a department; the
    title is named. *)
Lemma entry_required_keys_witness :
  MakeSimpleTransfers.transfer_entry
    (VDict [("type", VStr "Course");
            ("course", VDict [("prefix", VStr "ART"); ("courseNumber", VStr "2")])])
  = Raise (KeyError (VStr "courseTitle")).
Proof.
  destruct (entry_required_keys
              (VDict [("type", VStr "Course");
                      ("course", VDict [("prefix", VStr "ART");
                                        ("courseNumber", VStr "2")])])
              [("prefix", VStr "ART"); ("courseNumber", VStr "2")] eq_refl)
    as (named & _).
  now apply named.
Defined.

(** ** Names with one part only *)

Lemma rstrip_separator (s : string) :
  rstrip space_or_hyphen (s ++ " - ") = rstrip space_or_hyphen s.
Proof.
  induction s as [| c rest IH]; [reflexivity |].
  cbn [append rstrip]. now rewrite IH.
Qed.

Lemma lstrip_separator (s : string) :
  lstrip space_or_hyphen (s ++ " - ")
  = match lstrip space_or_hyphen s with
    | EmptyString => EmptyString
    | kept => kept ++ " - "
    end.
Proof.
  induction s as [| c rest IH]; [reflexivity |].
  cbn [append lstrip]. now destruct (space_or_hyphen c).
Qed.

Lemma strip_separator (s : string) :
  strip space_or_hyphen (s ++ " - ") = strip space_or_hyphen s.
Proof.
  unfold strip. rewrite lstrip_separator.
  destruct (lstrip space_or_hyphen s) as [| c kept]; [reflexivity |].
  apply rstrip_separator.
Qed.

Lemma course_name_of_texts (kvs : list (string * pyval)) (identifier title : string) :
  text_field kvs "identifier" identifier ->
  text_field kvs "courseTitle" title ->
  IGETC.course_name (VDict kvs)
  = Ok (strip space_or_hyphen
          (strip isspace identifier ++ " - " ++ strip isspace title)).
Proof.
  intros Hi Ht.
  destruct (py_or_text _ _ _ Hi) as (i & Ei & Si).
  destruct (py_or_text _ _ _ Ht) as (t & Et & St).
  unfold IGETC.course_name.
  rewrite Ei; cbn [bind]. rewrite Si; cbn [bind].
  rewrite Et; cbn [bind]. rewrite St; reflexivity.
Qed.

(** X21: an entry with one part only is named by that part alone, the
    separator gone: when the identifier is missing or blank the name is the
    trimmed title with the spaces and hyphens at its ends stripped, and when
    the title is missing or blank it is the trimmed identifier, stripped
    likewise. *)
Theorem name_with_one_part (kvs : list (string * pyval)) (identifier title : string) :
  text_field kvs "identifier" identifier ->
  text_field kvs "courseTitle" title ->
  (strip isspace identifier = "" ->
   IGETC.course_name (VDict kvs)
   = Ok (strip space_or_hyphen (strip isspace title)))
  /\ (strip isspace title = "" ->
      IGETC.course_name (VDict kvs)
      = Ok (strip space_or_hyphen (strip isspace identifier))).
Proof.
  intros Hi Ht. rewrite (course_name_of_texts _ _ _ Hi Ht). split.
  - intros ->. reflexivity.
  - intros ->. now rewrite strip_separator.
Qed.

(** X21, witness: a blank identifier and a title between hyphens. *)
Lemma name_with_one_part_witness :
  IGETC.course_name
    (VDict [("identifier", VStr "   "); ("courseTitle", VStr "- Calculus -")])
  = Ok "Calculus".
Proof.
  destruct (name_with_one_part
              [("identifier", VStr "   "); ("courseTitle", VStr "- Calculus -")]
              "   " "- Calculus -") as (titled & _).
  - left. reflexivity.
  - left. reflexivity.
  - now rewrite titled.
Defined.

(** ** The institution directory: the script *)

Lemma institution_record_on_string (s : string) :
  GetInstitutions.institution_record (VStr s) = Raise AttributeError.
Proof. reflexivity. Qed.

Lemma parsed_length (institutions : pyval) (records : list pyval) :
  GetInstitutions.parsed institutions = Ok records ->
  List.length records = List.length (elements institutions).
Proof.
  unfold GetInstitutions.parsed.
  destruct (iter institutions) as [insts | e] eqn:Ei; [| discriminate].
  cbn [bind]. destruct (iter_elements _ _ Ei) as [-> | (s & rest & -> & _)].
  - apply Departments.mapM_length.
  - cbn [mapM]. now rewrite institution_record_on_string.
Qed.

(** X22: when the fetch goes through and every record can be built, there
    are as many records as institutions in the response, and the script
    opens [school_codes.txt] in the working directory: if the file can be
    opened the records are dumped to it and their number is printed; if it
    cannot, the script raises [OSError] and prints nothing. *)
Theorem directory_written_and_reported (institutions : pyval)
    (records : list pyval) (w : World) :
  answers w GetInstitutions.URL institutions ->
  GetInstitutions.parsed institutions = Ok records ->
  List.length records = List.length (elements institutions)
  /\ (unwritable w "school_codes.txt" = false ->
      GetInstitutions.main w
      = (Ok tt,
         and_printed (and_dumped w "school_codes.txt" (VList records))
           ("Wrote " ++ str_of_int (Z.of_nat (List.length records))
            ++ " schools to school_codes.txt")))
  /\ (unwritable w "school_codes.txt" = true ->
      GetInstitutions.main w = (Raise OSError, w)).
Proof.
  intros (r & Hr & Hs & Hb) Hp. split; [now apply parsed_length |].
  unfold GetInstitutions.main, mbind, requests_get, raise_for_status,
    response_json, lift, ret, dump_to.
  rewrite Hr, Hs, Hb, Hp. split; intros ->; reflexivity.
Qed.

(** X23: the directory script catches nothing and leaves no partial output:
    a failed fetch makes it raise that [RequestException], and whenever it
    raises, for a failed fetch, a response that is not JSON or a record
    without an [id], it has printed nothing and written no file. *)
Theorem directory_all_or_nothing (w : World) :
  (forall msg,
      fetch_failure (http w GetInstitutions.URL) = Some msg ->
      exists kind,
        GetInstitutions.main w = (Raise (RequestException kind msg), w))
  /\ (forall e,
        fst (GetInstitutions.main w) = Raise e ->
        snd (GetInstitutions.main w) = w).
Proof.
  unfold GetInstitutions.main, mbind, requests_get, raise_for_status,
    response_json, lift, ret, raise, fetch_failure.
  split.
  - intros msg H. destruct (http w GetInstitutions.URL) as [kind m | r].
    + injection H as ->. now exists kind.
    + rewrite H. now exists HTTPError.
  - intros e. destruct (http w GetInstitutions.URL) as [kind m | r]; [reflexivity |].
    destruct (status_error r); [reflexivity |].
    destruct (json_body r) as [institutions | e0]; [| reflexivity].
    destruct (GetInstitutions.parsed institutions); [| reflexivity].
    unfold dump_to. destruct (unwritable w _); [reflexivity | discriminate].
Qed.

(** X22, witness: two schools served. *)
Lemma directory_written_and_reported_witness :
  stdout (snd (GetInstitutions.main
                 (serving (VList [berkeley; unnamed_school]) (midnight 2024 1 1))))
  = [codes "Wrote 2 schools to school_codes.txt"].
Proof.
  destruct (directory_written_and_reported (VList [berkeley; unnamed_school])
              [VDict [("schoolName", VStr "University of California, Berkeley");
                      ("code", VInt 79)];
               VDict [("schoolName", VNone); ("code", VInt 12)]]
              (serving (VList [berkeley; unnamed_school]) (midnight 2024 1 1)))
    as (_ & Hm & _).
  - eexists. repeat split.
  - reflexivity.
  - now rewrite (Hm eq_refl).
Defined.

(** X23, witness: a school without an id; the world stays as it was. *)
Lemma directory_all_or_nothing_witness :
  snd (GetInstitutions.main (serving (VList [berkeley; without_id]) (midnight 2024 1 1)))
  = serving (VList [berkeley; without_id]) (midnight 2024 1 1).
Proof.
  destruct (directory_all_or_nothing
              (serving (VList [berkeley; without_id]) (midnight 2024 1 1)))
    as (_ & nothing).
  now apply (nothing (KeyError (VStr "id"))).
Defined.

(** ** calgetc.py: the entry point; where the GE-list scripts write *)

Section CalgetcScript.

Variable fromisoformat : string -> iso_outcome.



End CalgetcScript.


Lemma isabs_append (dir tail : string) :
  isabs dir = true -> isabs (dir ++ tail) = true.
Proof.
  unfold isabs. destruct dir as [| c rest]; [discriminate |].
  cbn [append String.prefix].
  destruct (ascii_dec "/" c); [| discriminate].
  intros _. now destruct (rest ++ tail).
Qed.

Lemma append_associative (a b c : string) : (a ++ b) ++ c = a ++ b ++ c.
Proof.
  induction a as [| x a IH]; [reflexivity |]. cbn [append]. now rewrite IH.
Qed.

(** X25: where the GE-list scripts write: an absolute [out_file] is used as
    it is; in every case the path ends with [out_file]; and when the
    script's directory is absolute, so is the path, wherever the script was
    started from. *)
Theorem output_path_resolution (script_dir out_file : string) :
  (isabs out_file = true -> out_path script_dir out_file = out_file)
  /\ (exists front, out_path script_dir out_file = front ++ out_file)
  /\ (isabs script_dir = true -> isabs (out_path script_dir out_file) = true).
Proof.
  unfold out_path, path_join.
  destruct (isabs out_file) eqn:Ha.
  - repeat split; trivial. now exists "".
  - split; [discriminate |].
    destruct (String.eqb script_dir "" || ends_with "/" script_dir).
    + split; [now exists script_dir | apply isabs_append].
    + split.
      * exists (script_dir ++ "/").
        now rewrite append_associative.
      * apply isabs_append.
Qed.

(** X25, witness: a relative name beside a script installed in /opt. *)
Lemma output_path_resolution_witness :
  isabs (out_path "/opt/assist" "csu_transfers.json") = true.
Proof.
  destruct (output_path_resolution "/opt/assist" "csu_transfers.json")
    as (_ & _ & absolute).
  now apply absolute.
Defined.
